(** * jester-mcp: execution engine, security analyzer, inspector and
      JSON-RPC front-end

    A shallow embedding of the parts of [src/standalone_mcp_server.py] and
    [src/mcp_inspector.py] that the specification's testable properties talk
    about, with the properties stated and proved (or refuted) on it.

    Conventions of the embedding.
    - A Python [str] is a Rocq [string]; a character is a code point below
      256, so that [str.strip] and [str.lower] are the Latin-1 restrictions of
      Python's.
    - A Python [float] is a rational ([Q]): arithmetic is exact, which is the
      idealisation the specification's "within floating-point tolerance"
      refers to.
    - Everything the program obtains from outside itself (child processes,
      the clock, random identifiers, the text of a library exception, the JSON
      parser of the standard library) is a field of an explicit environment
      record; every theorem quantifies over all environments.
    - An [except Exception] handler is a match on [Raise]; [BaseException]s
      that are not [Exception]s (keyboard interrupt, interpreter exit) are not
      modelled. *)

From Stdlib Require Import ZArith QArith Qfield Ascii String List Bool Lia DecimalString.
From stdpp Require Import base option list strings gmap.

Set Default Proof Using "Type".
Open Scope Z_scope.

(** ** Python values shared by all components *)

(** The outcome of a call that may raise: [Raise msg] carries [str(e)]. *)
Inductive outcome (A : Type) : Type :=
  | Ok (a : A)
  | Raise (msg : string).
Arguments Ok {A} a.
Arguments Raise {A} msg.

(** ** Python string operations *)

Module PyStr.

(** [str.startswith]. *)
Fixpoint startswith (s p : string) : bool :=
  match p, s with
  | EmptyString, _ => true
  | String a p', String b s' => if Ascii.eqb a b then startswith s' p' else false
  | String _ _, EmptyString => false
  end.

(** [p in s] for two strings: [p] occurs in [s] as a contiguous run. *)
Fixpoint contains (p s : string) : bool :=
  startswith s p ||
  match s with
  | EmptyString => false
  | String _ s' => contains p s'
  end.

(** [str.isspace] on one character (code points below 256). *)
Definition is_space (c : ascii) : bool :=
  let n := nat_of_ascii c in
  ((9 <=? n) && (n <=? 13) || (28 <=? n) && (n <=? 32)
   || (n =? 133) || (n =? 160))%nat.

Fixpoint lstrip (s : string) : string :=
  match s with
  | EmptyString => EmptyString
  | String c s' => if is_space c then lstrip s' else s
  end.

Fixpoint rstrip (s : string) : string :=
  match s with
  | EmptyString => EmptyString
  | String c s' =>
      match rstrip s' with
      | EmptyString => if is_space c then EmptyString else String c EmptyString
      | r => String c r
      end
  end.

(** [str.strip()] with no argument. *)
Definition strip (s : string) : string := rstrip (lstrip s).

(** [str.lower] on one character. *)
Definition lower_char (c : ascii) : ascii :=
  let n := nat_of_ascii c in
  if ((65 <=? n) && (n <=? 90)
      || (192 <=? n) && (n <=? 222) && negb (n =? 215))%nat
  then ascii_of_nat (n + 32) else c.

Fixpoint lower (s : string) : string :=
  match s with
  | EmptyString => EmptyString
  | String c s' => String (lower_char c) (lower s')
  end.

(** Truth value of a string: [if s:]. *)
Definition truthy (s : string) : bool :=
  match s with EmptyString => false | _ => true end.

(** [" ".join(l)]. *)
Fixpoint join (sep : string) (l : list string) : string :=
  match l with
  | [] => EmptyString
  | [x] => x
  | x :: rest => x +:+ sep +:+ join sep rest
  end.

(** [str(n)] for an [int]. *)
Definition str_of_int (n : Z) : string := NilZero.string_of_int (Z.to_int n).

Definition LF : string := String (ascii_of_nat 10) EmptyString.

End PyStr.

(** ** The execution engine: [PodmanCodeExecutor] *)

Module Engine.
Import PyStr.

Record ExecutionResult : Type := mkResult {
  success : bool;
  output : string;
  error : string;
  execution_time : Q;
  memory_usage : Z;
  container_id : option string;
  security_level : string;
  method : string
}.

(** The dataclass defaults: [container_id=None],
    [security_level="container"], [method="podman"]. *)
Definition default_security_level : string := "container".

Definition with_execution_time (r : ExecutionResult) (t : Q) : ExecutionResult :=
  mkResult (success r) (output r) (error r) t (memory_usage r)
           (container_id r) (security_level r) (method r).

(** [_default_config]; the entries no method reads are left out. *)
Record Config : Type := mkConfig {
  timeout : Z;
  memory_limit : string;
  cpu_limit : string;
  tmp_size : string
}.

Definition _default_config : Config :=
  mkConfig 30 "128m" "0.5" "64m".

Definition _initialize_base_images : gmap string string :=
  list_to_map
    [ ("python", "docker.io/python:3.11-alpine");
      ("javascript", "docker.io/node:18-alpine");
      ("bash", "docker.io/alpine:latest");
      ("rust", "docker.io/rust:1.70-alpine");
      ("go", "docker.io/golang:1.20-alpine") ].

Record SessionContainer : Type := mkSession {
  created : Q;
  language : string;
  session_container_id : string
}.

(** The fields of [self]. *)
Record Executor : Type := mkExecutor {
  config : Config;
  containers : gmap string SessionContainer;
  base_images : gmap string string;
  podman_available : bool
}.

(** [__init__] with the outcome of [_check_podman_availability]. *)
Definition init (available : bool) : Executor :=
  mkExecutor _default_config ∅ _initialize_base_images available.

Definition with_containers (e : Executor) (c : gmap string SessionContainer) : Executor :=
  mkExecutor (config e) c (base_images e) (podman_available e).

(** What a child process did. *)
Inductive completed : Type :=
  Completed (returncode : Z) (stdout stderr : string).

(** A child process awaited under a deadline. *)
Inductive waited : Type :=
  | Finished (p : completed)
  | TimedOut
  | NotFound (msg : string)      (* FileNotFoundError *)
  | Failed (msg : string).       (* any other Exception *)

(** The environment of one [execute_code] call. *)
Record World : Type := mkWorld {
  (** [uuid.uuid4().hex[:8]], by call site *)
  uuid_isolated : string;
  uuid_persistent : string;
  uuid_development : string;
  (** [tempfile.TemporaryDirectory()] followed by [write_text]: the path of
      the code file in it, from the file's name and the code *)
  temp_code_file : string -> string -> outcome string;
  (** [tempfile.NamedTemporaryFile(suffix='.py')] followed by [write] *)
  named_temp_file : string -> outcome string;
  (** a child process with a deadline: argument vector, deadline *)
  run_deadline : list string -> Z -> waited;
  (** a child process without one: argument vector, standard input *)
  run_stdin : list string -> string -> outcome completed;
  (** the shell of [subprocess.run(code, shell=True)] *)
  run_shell : string -> Z -> waited;
  (** [_get_memory_usage], which swallows every exception *)
  _get_memory_usage : string -> Z;
  sys_executable : string;
  (** [time.time()] at entry, and [time.time() - start_time] at exit *)
  now : Q;
  elapsed : Q;
  (** [str(KeyError(k))] *)
  key_error : string -> string
}.

Definition _get_file_extension (language : string) : string :=
  let extensions : gmap string string :=
    list_to_map [ ("python", "py"); ("javascript", "js"); ("bash", "sh");
                  ("rust", "rs"); ("go", "go") ] in
  default "txt" (extensions !! language).

Definition _get_execution_command (language file_path : string) : list string :=
  let commands : gmap string (list string) :=
    list_to_map
      [ ("python", ["python3"; file_path]);
        ("javascript", ["node"; file_path]);
        ("bash", ["sh"; file_path]);
        ("rust", ["sh"; "-c";
                  "cd /tmp && rustc " +:+ file_path +:+ " -o /tmp/program && /tmp/program"]);
        ("go", ["sh"; "-c"; "cd /tmp && go run " +:+ file_path]) ] in
  default ["cat"; file_path] (commands !! language).

(** *** Container tiers *)

Definition _execute_isolated (self : Executor) (w : World)
    (code language : string) : ExecutionResult :=
  let container_name := "claude-jester-" +:+ language +:+ "-" +:+ uuid_isolated w in
  let failed (msg : string) :=
    mkResult false "" ("Container execution failed: " +:+ msg) 0 0
             None "isolation" "podman_error" in
  let name := "code." +:+ _get_file_extension language in
  match temp_code_file w name code with
  | Raise msg => failed msg
  | Ok code_file =>
      match base_images self !! language with
      | None => failed (key_error w language)
      | Some image =>
          let podman_cmd :=
            [ "podman"; "run"; "--rm"; "--name"; container_name;
              "--network"; "none";
              "--memory"; memory_limit (config self);
              "--cpus"; cpu_limit (config self);
              "--read-only";
              "--tmpfs"; "/tmp:rw,size=" +:+ tmp_size (config self);
              "--security-opt"; "no-new-privileges";
              "--cap-drop"; "ALL";
              "--user"; "nobody";
              "-v"; code_file +:+ ":/code/" +:+ name +:+ ":ro";
              image ]
            ++ _get_execution_command language ("/code/" +:+ name) in
          match run_deadline w podman_cmd (timeout (config self)) with
          | Finished (Completed returncode stdout stderr) =>
              mkResult (returncode =? 0) stdout stderr 0
                       (_get_memory_usage w container_name)
                       (Some container_name) "isolation" "podman"
          | TimedOut =>
              (* [_kill_container], then *)
              mkResult false ""
                ("Execution timed out after " +:+ str_of_int (timeout (config self))
                 +:+ " seconds")
                (inject_Z (timeout (config self))) 0
                None "isolation" "podman_timeout"
          | NotFound msg | Failed msg => failed msg
          end
      end
  end.

Definition _execute_development (self : Executor) (w : World)
    (code language : string) : ExecutionResult :=
  let container_name := "claude-dev-" +:+ language +:+ "-" +:+ uuid_development w in
  let failed (msg : string) :=
    mkResult false "" ("Development execution failed: " +:+ msg) 0 0
             None "development" "podman_error" in
  let name := "code." +:+ _get_file_extension language in
  match temp_code_file w name code with
  | Raise msg => failed msg
  | Ok code_file =>
      match base_images self !! language with
      | None => failed (key_error w language)
      | Some image =>
          let podman_cmd :=
            [ "podman"; "run"; "--rm"; "--name"; container_name;
              "--memory"; "512m";
              "--cpus"; "1.0";
              "--tmpfs"; "/tmp:rw,size=256m";
              "-v"; code_file +:+ ":/code/" +:+ name +:+ ":ro";
              image ]
            ++ _get_execution_command language ("/code/" +:+ name) in
          match run_deadline w podman_cmd 60 with
          | Finished (Completed returncode stdout stderr) =>
              mkResult (returncode =? 0) stdout stderr 0
                       (_get_memory_usage w container_name)
                       (Some container_name) "development" "podman"
          | TimedOut =>
              mkResult false ""
                "Development execution timed out after 60 seconds"
                60 0 None "development" "podman_timeout"
          | NotFound msg | Failed msg => failed msg
          end
      end
  end.

(** [_create_session_container]: the registry with the new session, or
    the exception. *)
Definition _create_session_container (self : Executor) (w : World)
    (session_id language : string) : outcome Executor :=
  match base_images self !! language with
  | None => Raise (key_error w language)
  | Some image =>
      let podman_cmd :=
        [ "podman"; "run"; "-d"; "--name"; session_id;
          "--network"; "none";
          "--memory"; memory_limit (config self);
          "--cpus"; cpu_limit (config self);
          "--tmpfs"; "/tmp:rw,size=" +:+ tmp_size (config self);
          "--security-opt"; "no-new-privileges";
          "--cap-drop"; "ALL";
          "--user"; "nobody";
          image; "sleep"; "3600" ] in
      match run_stdin w podman_cmd "" with
      | Raise msg => Raise msg
      | Ok (Completed returncode stdout stderr) =>
          if negb (returncode =? 0)
          then Raise ("Failed to create session container: " +:+ stderr)
          else Ok (with_containers self
                     (<[ session_id := mkSession (now w) language (strip stdout) ]>
                        (containers self)))
      end
  end.

(** The [try] block of [_execute_persistent]. *)
Definition persistent_body (self : Executor) (w : World)
    (session_id code language : string) : outcome ExecutionResult :=
  let temp_file := "/tmp/code_" +:+ uuid_persistent w +:+ "."
                   +:+ _get_file_extension language in
  match run_stdin w ["podman"; "exec"; session_id; "sh"; "-c"; "cat > " +:+ temp_file] code with
  | Raise msg => Raise msg
  | Ok (Completed returncode _ stderr) =>
      if negb (returncode =? 0)
      then Raise ("Failed to write code: " +:+ stderr)
      else
        let exec_cmd := _get_execution_command language temp_file in
        match run_deadline w (["podman"; "exec"; session_id] ++ exec_cmd)
                           (timeout (config self)) with
        | Finished (Completed returncode stdout stderr) =>
            Ok (mkResult (returncode =? 0) stdout stderr 0
                         (_get_memory_usage w session_id)
                         (Some session_id) "persistent" "podman")
        | TimedOut =>
            Ok (mkResult false ""
                  ("Execution timed out after " +:+ str_of_int (timeout (config self))
                 +:+ " seconds")
                  (inject_Z (timeout (config self))) 0
                  None "persistent" "podman_timeout")
        | NotFound msg | Failed msg => Raise msg
        end
  end.

Definition _execute_persistent (self : Executor) (w : World)
    (code language : string) : outcome ExecutionResult * Executor :=
  let session_id := "claude-session-" +:+ language in
  let created :=
    match containers self !! session_id with
    | Some _ => Ok self
    | None => _create_session_container self w session_id language
    end in
  match created with
  | Raise msg => (Raise msg, self)
  | Ok self' =>
      match persistent_body self' w session_id code language with
      | Ok r => (Ok r, self')
      | Raise _ => (Ok (_execute_isolated self' w code language), self')
      end
  end.

(** *** The subprocess fallback *)

(** The text assembled from the two captured streams; [label] is the
    heading of the error stream when there is output before it. *)
Definition assemble (label silent : string) (p : completed) : string :=
  let 'Completed _ stdout stderr := p in
  let output := "" in
  let output :=
    if truthy stdout then output +:+ "Output:" +:+ LF +:+ strip stdout else output in
  let output :=
    if truthy stderr then
      if truthy output
      then output +:+ LF +:+ LF +:+ label +:+ LF +:+ strip stderr
      else output +:+ "Errors:" +:+ LF +:+ strip stderr
    else output in
  if truthy output then output else silent.

Definition _sync_execute_python (w : World) (code : string) : string :=
  match named_temp_file w code with
  | Raise msg => "Error executing Python code: " +:+ msg
  | Ok temp_file =>
      match run_deadline w [sys_executable w; temp_file] 30 with
      | Finished p =>
          assemble "Errors/Warnings:" "Code executed successfully (no output)" p
      | TimedOut => "Error: Code execution timed out (30 seconds)"
      | NotFound msg | Failed msg => "Error executing Python code: " +:+ msg
      end
  end.

Definition _sync_execute_javascript (w : World) (code : string) : string :=
  match run_deadline w ["node"; "-e"; code] 30 with
  | Finished p => assemble "Errors:" "Code executed successfully (no output)" p
  | NotFound _ =>
      "Error: Node.js not found. Please install Node.js to run JavaScript code."
  | TimedOut => "Error: Code execution timed out (30 seconds)"
  | Failed msg => "Error executing JavaScript code: " +:+ msg
  end.

Definition _sync_execute_bash (w : World) (code : string) : string :=
  match run_shell w code 30 with
  | Finished p => assemble "Errors:" "Command executed successfully (no output)" p
  | TimedOut => "Error: Command execution timed out (30 seconds)"
  | NotFound msg | Failed msg => "Error executing bash command: " +:+ msg
  end.

(** The [try] block of [_fallback_execution] up to the result text.  The
    three executors catch every exception themselves, so the text is always
    there. *)
Definition fallback_text (w : World) (code language : string) : outcome string :=
  if String.eqb language "python" then Ok (_sync_execute_python w code)
  else if String.eqb language "javascript" || String.eqb language "js"
  then Ok (_sync_execute_javascript w code)
  else if String.eqb language "bash" then Ok (_sync_execute_bash w code)
  else Ok ("Unsupported language: " +:+ language).

Definition _fallback_execution (w : World) (code language : string)
    : ExecutionResult :=
  match fallback_text w code language with
  | Ok result =>
      mkResult (negb (contains "Error:" result))
               (if negb (contains "Error:" result) then result else "")
               (if contains "Error:" result then result else "")
               (elapsed w) 0 None "subprocess" "fallback"
  | Raise msg =>
      mkResult false "" ("Fallback execution failed: " +:+ msg)
               (elapsed w) 0 None "subprocess" "fallback_error"
  end.

(** *** [execute_code] *)

Definition execute_code (self : Executor) (w : World)
    (code language security_level : string) : ExecutionResult * Executor :=
  if negb (podman_available self)
  then (_fallback_execution w code language, self)
  else
    let '(result, self') :=
      if String.eqb security_level "isolation"
      then (Ok (_execute_isolated self w code language), self)
      else if String.eqb security_level "persistent"
      then _execute_persistent self w code language
      else if String.eqb security_level "development"
      then (Ok (_execute_development self w code language), self)
      else (Ok (_execute_isolated self w code language), self) in
    match result with
    | Ok result => (with_execution_time result (elapsed w), self')
    | Raise msg =>
        (mkResult false "" ("Container execution failed: " +:+ msg)
                  (elapsed w) 0 None default_security_level "podman_error",
         self')
    end.

(** A result is well tagged when its success is carried by one of the two
    tags of a completed run. *)
Definition well_tagged (r : ExecutionResult) : Prop :=
  success r = true -> method r = "podman" \/ method r = "fallback".

End Engine.

(** ** JSON values, as [json.loads] returns them *)

Module Json.

(** [JNull] is Python's [None]; an object is a [dict], kept as the list of
    its items. *)
#[warnings="-register-all"]
Inductive json : Type :=
  | JNull
  | JBool (b : bool)
  | JInt (n : Z)
  | JFloat (x : Q)
  | JStr (s : string)
  | JArr (items : list json)
  | JObj (items : list (string * json)).

Definition dict : Type := list (string * json).

(** [d.get(k)]: [None] when the key is absent. *)
Fixpoint get (d : dict) (k : string) : json :=
  match d with
  | [] => JNull
  | (k', v) :: rest => if String.eqb k' k then v else get rest k
  end.

(** [d.get(k, dflt)]. *)
Fixpoint get_default (d : dict) (k : string) (dflt : json) : json :=
  match d with
  | [] => dflt
  | (k', v) :: rest => if String.eqb k' k then v else get_default rest k dflt
  end.

(** Truth value: [if v:]. *)
Definition truthy (v : json) : bool :=
  match v with
  | JNull => false
  | JBool b => b
  | JInt n => negb (n =? 0)
  | JFloat x => negb (Qeq_bool x 0)
  | JStr s => PyStr.truthy s
  | JArr items => match items with [] => false | _ => true end
  | JObj items => match items with [] => false | _ => true end
  end.

(** [v == s] for a string literal [s]. *)
Definition is_str (v : json) (s : string) : bool :=
  match v with
  | JStr s' => String.eqb s' s
  | _ => false
  end.

End Json.

(** ** The security analyzer: [IntegratedSlashCommands._analyze_security] *)

Module Analyzer.
Import PyStr.

Record Stats : Type := mkStats {
  commands_executed : Z;
  quantum_tests_run : Z;
  performance_gains_found : Z;
  bugs_prevented : Z;
  containers_used : Z;
  security_violations_prevented : Z
}.

Record HistoryEntry : Type := mkHistoryEntry {
  timestamp : Q;
  command : string;
  args : list string
}.

(** The mutable fields of [self]; the command registry is filled once by
    [__init__] and only read afterwards. *)
Record IntegratedSlashCommands : Type := mkSlash {
  podman_executor : option Engine.Executor;
  history : list HistoryEntry;
  stats : Stats
}.

Definition dangerous_patterns : list (string * string) :=
  [ ("import os", "File system access");
    ("subprocess", "System command execution");
    ("exec(", "Code injection risk");
    ("eval(", "Expression evaluation risk");
    ("open(", "File access");
    ("__import__", "Dynamic imports");
    ("urllib", "Network access");
    ("requests", "HTTP requests");
    ("socket", "Network socket access");
    ("sys.exit", "System exit attempt");
    ("os.system", "System command execution");
    ("os.popen", "System command execution") ].

(** One turn of the loop: [issues.append] when the pattern occurs. *)
Definition scan (code : string) (issues : list string)
    (entry : string * string) : list string :=
  let '(pattern, description) := entry in
  if contains pattern code
  then issues ++ [description +:+ ": `" +:+ pattern +:+ "`"]
  else issues.

(** The method in state-passing style: the findings and [self] after the
    call. *)
Definition _analyze_security (self : IntegratedSlashCommands) (code : string)
    : list string * IntegratedSlashCommands :=
  let issues := [] in
  let issues := fold_left (scan code) dangerous_patterns issues in
  (issues, self).

(** The finding reported for a catalogue entry. *)
Definition finding (entry : string * string) : string :=
  entry.2 +:+ ": `" +:+ entry.1 +:+ "`".

End Analyzer.

(** ** The inspector: [MCPInspector] *)

Module Inspector.
Import Json.

(** The dataclass [MCPMessage].  Its [method] is declared [Optional[str]]
    and its [message_type] [str]: the ['method'] entry of a content is a
    string when it is there. *)
Record MCPMessage : Type := mkMessage {
  timestamp : Q;
  direction : string;
  message_type : string;
  method : option string;
  message_id : json;
  content : dict;
  execution_time : option Q;
  error : option string
}.

Record MethodStats : Type := mkMethodStats {
  count : Z;
  total_time : Q;
  avg_time : Q;
  errors : Z
}.

Record Metrics : Type := mkMetrics {
  total_messages : Z;
  avg_response_time : Q;
  error_count : Z;
  method_stats : gmap string MethodStats
}.

(** The fields of [self].  [connected_clients] is left out:
    [log_message] calls the coroutine function [_broadcast_to_clients]
    without awaiting it, which sends nothing. *)
Record MCPInspector : Type := mkInspector {
  messages : list MCPMessage;
  performance_metrics : Metrics;
  is_recording : bool;
  max_messages : Z
}.

(** [__init__]. *)
Definition init : MCPInspector :=
  mkInspector [] (mkMetrics 0 0 0 ∅) true 1000.

(** Truth values of the optional fields: [if message.error:],
    [if message.execution_time:], [if message.method:]. *)
Definition truthy_str (o : option string) : bool :=
  match o with Some s => PyStr.truthy s | None => false end.

Definition truthy_float (o : option Q) : bool :=
  match o with Some x => negb (Qeq_bool x 0) | None => false end.

Definition time_of (o : option Q) : Q := default 0%Q o.

Definition as_str (v : json) : option string :=
  match v with JStr s => Some s | _ => None end.

Definition _update_metrics (m : Metrics) (message : MCPMessage) : Metrics :=
  let total := total_messages m + 1 in
  let error_count :=
    if truthy_str (error message) then error_count m + 1 else error_count m in
  let avg :=
    if truthy_float (execution_time message) then
      let current_avg := avg_response_time m in
      ((current_avg * inject_Z (total - 1) + time_of (execution_time message))
       / inject_Z total)%Q
    else avg_response_time m in
  let method_stats :=
    match method message with
    | Some name =>
        if PyStr.truthy name then
          let stats := default (mkMethodStats 0 0 0 0) (method_stats m !! name) in
          let count := count stats + 1 in
          let '(total_time, avg_time) :=
            if truthy_float (execution_time message) then
              let total_time :=
                (total_time stats + time_of (execution_time message))%Q in
              (total_time, (total_time / inject_Z count)%Q)
            else (total_time stats, avg_time stats) in
          let errors :=
            if truthy_str (error message) then errors stats + 1 else errors stats in
          <[ name := mkMethodStats count total_time avg_time errors ]> (method_stats m)
        else method_stats m
    | None => method_stats m
    end in
  mkMetrics total avg error_count method_stats.

(** The message [log_message] builds; [now] is [time.time()]. *)
Definition message_of (now : Q) (direction : string) (content : dict)
    (execution_time : option Q) (error : option string) : MCPMessage :=
  mkMessage now direction
            (default "response" (as_str (get_default content "method" (JStr "response"))))
            (as_str (get content "method"))
            (get content "id")
            content execution_time error.

Definition log_message (self : MCPInspector) (now : Q) (direction : string)
    (content : dict) (execution_time : option Q) (error : option string)
    : MCPInspector :=
  let message := message_of now direction content execution_time error in
  if is_recording self then
    let messages := messages self ++ [message] in
    let messages :=
      if Z.of_nat (length messages) >? max_messages self
      then tail messages            (* [pop(0)] *)
      else messages in
    mkInspector messages (_update_metrics (performance_metrics self) message)
                (is_recording self) (max_messages self)
  else self.

(** The two dashboard routes that write to the inspector. *)
Definition clear_messages (self : MCPInspector) : MCPInspector :=
  mkInspector [] (performance_metrics self) (is_recording self) (max_messages self).

Definition toggle_recording (self : MCPInspector) : MCPInspector :=
  mkInspector (messages self) (performance_metrics self)
              (negb (is_recording self)) (max_messages self).

(** A call on the inspector. *)
Inductive call : Type :=
  | Log (now : Q) (direction : string) (content : dict)
        (execution_time : option Q) (error : option string)
  | Clear
  | Toggle.

Definition step (self : MCPInspector) (c : call) : MCPInspector :=
  match c with
  | Log now direction content execution_time error =>
      log_message self now direction content execution_time error
  | Clear => clear_messages self
  | Toggle => toggle_recording self
  end.

Definition run (calls : list call) (self : MCPInspector) : MCPInspector :=
  fold_left step calls self.

(** What [EnhancedMCPServer._wrap_handler] logs around a handler that
    returns after [execution_time] milliseconds: the request, with no time,
    then the response; [result] is [str(result)[:500]], or [None] for a
    result that counts as false. *)
Definition wrapped_handler_calls (method args : string) (result : option string)
    (start finish : Q) (execution_time : Q) : list call :=
  [ Log start "inbound" [("method", JStr method); ("args", JStr args)] None None;
    Log finish "outbound"
        [("method", JStr method);
         ("result", match result with Some r => JStr r | None => JNull end)]
        (Some execution_time) None ].

(** The execution times the calls handed to [log_message] while it was
    recording, oldest first. *)
Fixpoint recorded_times (calls : list call) (recording : bool) : list Q :=
  match calls with
  | [] => []
  | Log _ _ _ (Some x) _ :: rest =>
      if recording then x :: recorded_times rest recording
      else recorded_times rest recording
  | Log _ _ _ None _ :: rest => recorded_times rest recording
  | Clear :: rest => recorded_times rest recording
  | Toggle :: rest => recorded_times rest (negb recording)
  end.

(** The sum and the arithmetic mean of a list of times; the mean of no
    value at all is the initial [0]. *)
Definition total_time_of (l : list Q) : Q := fold_right Qplus 0%Q l.

Definition mean (l : list Q) : Q :=
  match l with
  | [] => 0
  | _ => (total_time_of l / inject_Z (Z.of_nat (length l)))%Q
  end.

(** Every call logs a message with a time that is not zero. *)
Definition timed (c : call) : Prop :=
  match c with
  | Log _ _ _ (Some x) _ => ~ (x == 0)%Q
  | _ => False
  end.

End Inspector.

(** ** The JSON-RPC front-end and the tool surface: [EnhancedMCPServer], [main] *)

Module Server.
Import PyStr Json.

(** A file, as the operating system identifies it.  Several paths name one
    file: [keep.txt] and [./keep.txt], a path through a link and the path of
    its target; [open] writes the file, whatever the path it is given. *)
Definition file : Type := string.

(** The content of the files, by file (not by path), as the server's own
    [open] calls leave them.  What the code that the server is asked to
    execute does to the files is not followed here. *)
Definition filesystem : Type := gmap file string.

(** What [json.loads] does with a line: it returns a value, raises
    [JSONDecodeError], or raises another exception ([RecursionError] on
    brackets nested deeper than the interpreter's recursion limit);
    [msg] is [str(e)]. *)
Inductive loaded : Type :=
| Loaded (value : json)
| JSONDecodeError (msg : string)
| OtherException (msg : string).

(** The environment of the front-end. *)
Record Env : Type := mkEnv {
  (** [json.loads] *)
  loads : string -> loaded;
  (** child processes, temporary files *)
  world : Engine.World;
  (** the reply of [IntegratedSlashCommands.process_command], which catches
      the exceptions of its handlers *)
  process_command : string -> string;
  (** the file that [open] designates for a path, once the operating
      system has resolved the working directory, [.] components, repeated
      separators and links *)
  file_of : string -> file;
  (** [open(filename, 'w')]: [str(e)] when it raises *)
  open_for_writing : filesystem -> string -> option string;
  (** [f.write(content)] for a string, and the close that ends the [with]
      block: [None] when both succeed; when one raises (the encoding of the
      file cannot encode a character, the disk is full), [str(e)] and what
      the file is left holding *)
  write : filesystem -> string -> string -> option (string * string);
  (** [str(v)], as an f-string renders a value *)
  py_str : json -> string;
  (** [str(e)] of the [AttributeError] of [v.name] *)
  attribute_error : json -> string -> string;
  (** [str(e)] of the [TypeError] of an operation on [v] *)
  type_error : json -> string
}.

(** *** Executors of the tool surface *)

Definition safe_execute_python_code (env : Env) (code : string) : string :=
  let w := world env in
  match Engine.named_temp_file w code with
  | Raise msg => "Error executing Python code: " +:+ msg
  | Ok temp_file =>
      match Engine.run_deadline w [Engine.sys_executable w; temp_file] 30 with
      | Engine.TimedOut => "Error: Code execution timed out (30 seconds)"
      | Engine.NotFound msg | Engine.Failed msg =>
          "Error: Subprocess execution failed: " +:+ msg
      | Engine.Finished p =>
          Engine.assemble "Errors/Warnings:" "Code executed successfully (no output)" p
      end
  end.

Definition safe_execute_javascript_code (env : Env) (code : string) : string :=
  match Engine.run_deadline (world env) ["node"; "-e"; code] 30 with
  | Engine.Finished p =>
      Engine.assemble "Errors:" "Code executed successfully (no output)" p
  | Engine.NotFound _ =>
      "Error: Node.js not found. Please install Node.js to run JavaScript code."
  | Engine.TimedOut => "Error: Code execution timed out (30 seconds)"
  | Engine.Failed msg => "Error executing JavaScript code: " +:+ msg
  end.

Definition safe_execute_bash_code (env : Env) (code : string) : string :=
  match Engine.run_shell (world env) code 30 with
  | Engine.Finished p =>
      Engine.assemble "Errors:" "Command executed successfully (no output)" p
  | Engine.TimedOut => "Error: Command execution timed out (30 seconds)"
  | Engine.NotFound msg | Engine.Failed msg =>
      "Error executing bash command: " +:+ msg
  end.

(** *** [safe_create_file] *)

Definition invalid_filename : string :=
  "Error: Invalid filename (path traversal attempt detected)".

(** The method on the declared argument types: the returned text and the
    file system after the call. *)
Definition safe_create_file (env : Env) (fs : filesystem)
    (filename content : string) : string * filesystem :=
  if contains ".." filename || startswith filename "/"
  then (invalid_filename, fs)
  else
    match open_for_writing env fs filename with
    | Some msg => ("Error creating file: " +:+ msg, fs)
    | None =>
        match write env fs filename content with
        | Some (msg, remains) =>
            ("Error creating file: " +:+ msg, <[ file_of env filename := remains ]> fs)
        | None =>
            ("File '" +:+ filename +:+ "' created successfully with "
               +:+ str_of_int (Z.of_nat (String.length content)) +:+ " characters",
             <[ file_of env filename := content ]> fs)
        end
    end.

(** The method on what [handle_call_tool] passes it, which is whatever the
    request holds: a file name that is not a string fails in the security
    check, and a content that is not a string fails in [f.write], after
    [open] has created or emptied the file. *)
Definition safe_create_file_dyn (env : Env) (fs : filesystem)
    (filename content : json) : string * filesystem :=
  match filename with
  | JStr name =>
      match content with
      | JStr text => safe_create_file env fs name text
      | _ =>
          if contains ".." name || startswith name "/"
          then (invalid_filename, fs)
          else
            match open_for_writing env fs name with
            | Some msg => ("Error creating file: " +:+ msg, fs)
            | None => ("Error creating file: " +:+ type_error env content,
                       <[ file_of env name := "" ]> fs)
            end
      end
  | JArr items =>
      if existsb (fun v => is_str v "..") items
      then (invalid_filename, fs)
      else ("Error creating file: " +:+ attribute_error env filename "startswith", fs)
  | JObj items =>
      if existsb (fun kv => String.eqb (fst kv) "..") items
      then (invalid_filename, fs)
      else ("Error creating file: " +:+ attribute_error env filename "startswith", fs)
  | _ => ("Error creating file: " +:+ type_error env filename, fs)
  end.

(** *** Responses *)

Definition result_response (request_id result : json) : json :=
  JObj [("jsonrpc", JStr "2.0"); ("id", request_id); ("result", result)].

Definition error_response (request_id : json) (code : Z) (message : string) : json :=
  JObj [("jsonrpc", JStr "2.0"); ("id", request_id);
        ("error", JObj [("code", JInt code); ("message", JStr message)])].

(** The body of a [tools/call] result. *)
Definition text_content (text : string) : json :=
  JObj [("content", JArr [JObj [("type", JStr "text"); ("text", JStr text)]])].

(** A member of a response, by key. *)
Definition member (v : json) (k : string) : json :=
  match v with
  | JObj items => get items k
  | _ => JNull
  end.

(** [request.get("id")], with [1] for [None]. *)
Definition request_id_of (request : dict) : json :=
  match get request "id" with
  | JNull => JInt 1
  | v => v
  end.

Definition handle_initialize (request : dict) : json :=
  result_response (request_id_of request)
    (JObj [("protocolVersion", JStr "2024-11-05");
           ("capabilities", JObj [("tools", JObj [])]);
           ("serverInfo", JObj [("name", JStr "claude-jester-podman");
                                ("version", JStr "3.0.0")])]).

Definition string_property (description : string) : json :=
  JObj [("type", JStr "string"); ("description", JStr description)].

Definition handle_list_tools (request : dict) : json :=
  result_response (request_id_of request)
    (JObj [("tools", JArr
      [ JObj [("name", JStr "execute_code");
              ("description", JStr "Execute code with quantum debugging, slash commands, and Podman containerization support");
              ("inputSchema", JObj
                [("type", JStr "object");
                 ("properties", JObj
                   [("language", JObj
                      [("type", JStr "string");
                       ("description", JStr "Programming language (python, javascript, bash) or 'slash' for commands");
                       ("enum", JArr [JStr "python"; JStr "javascript";
                                      JStr "bash"; JStr "slash"])]);
                    ("code", string_property
                       ("Code to execute or slash command (e.g., '/container isolation python print("
                        +:+ String (ascii_of_nat 34) "Hello!"
                        +:+ String (ascii_of_nat 34) ")')"))]);
                 ("required", JArr [JStr "language"; JStr "code"]);
                 ("additionalProperties", JBool false)])];
        JObj [("name", JStr "create_file");
              ("description", JStr "Create a file with specified content");
              ("inputSchema", JObj
                [("type", JStr "object");
                 ("properties", JObj
                   [("filename", string_property "Name of the file to create");
                    ("content", string_property "Content to write to the file")]);
                 ("required", JArr [JStr "filename"; JStr "content"]);
                 ("additionalProperties", JBool false)])] ])]).

(** *** [handle_call_tool] *)

(** The [try] block up to the result text.  A value of the wrong kind
    raises [AttributeError] where a method is called on it. *)
Definition call_tool_body (env : Env) (fs : filesystem) (request : dict)
    : outcome string * filesystem :=
  match get_default request "params" (JObj []) with
  | JObj params =>
      let tool_name := get params "name" in
      let arguments := get_default params "arguments" (JObj []) in
      if negb (truthy tool_name) then (Raise "Tool name is required", fs)
      else if is_str tool_name "execute_code" then
        match arguments with
        | JObj arguments =>
            match get_default arguments "language" (JStr "") with
            | JStr language =>
                let language := lower language in
                match get_default arguments "code" (JStr "") with
                | JStr code =>
                    if negb (PyStr.truthy (strip code))
                    then (Ok "Error: No code provided", fs)
                    else if String.eqb language "slash" || startswith code "/"
                    then (Ok (process_command env code), fs)
                    else if String.eqb language "python"
                    then (Ok (safe_execute_python_code env code), fs)
                    else if String.eqb language "javascript" || String.eqb language "js"
                    then (Ok (safe_execute_javascript_code env code), fs)
                    else if String.eqb language "bash"
                    then (Ok (safe_execute_bash_code env code), fs)
                    else (Ok ("Unsupported language: " +:+ language
                              +:+ ". Supported: python, javascript, bash, slash"), fs)
                | code => (Raise (attribute_error env code "strip"), fs)
                end
            | language => (Raise (attribute_error env language "lower"), fs)
            end
        | arguments => (Raise (attribute_error env arguments "get"), fs)
        end
      else if is_str tool_name "create_file" then
        match arguments with
        | JObj arguments =>
            let filename := get_default arguments "filename" (JStr "") in
            let content := get_default arguments "content" (JStr "") in
            if negb (truthy filename)
            then (Ok "Error: Filename is required", fs)
            else
              let '(result, fs') := safe_create_file_dyn env fs filename content in
              (Ok result, fs')
        | arguments => (Raise (attribute_error env arguments "get"), fs)
        end
      else (Ok ("Unknown tool: " +:+ py_str env tool_name), fs)
  | params => (Raise (attribute_error env params "get"), fs)
  end.

Definition handle_call_tool (env : Env) (fs : filesystem) (request : dict)
    : json * filesystem :=
  let '(body, fs') := call_tool_body env fs request in
  match body with
  | Ok result =>
      (result_response (request_id_of request) (text_content result), fs')
  | Raise msg =>
      (error_response (get_default request "id" (JInt 1)) (-32603)
         ("Internal error: " +:+ msg),
       fs')
  end.

(** *** [main] *)

(** The dispatch on [method]: the response, or [None] where the loop
    [continue]s without one. *)
Definition dispatch (env : Env) (fs : filesystem) (request : dict)
    : option json * filesystem :=
  let method := get request "method" in
  if is_str method "initialize" then (Some (handle_initialize request), fs)
  else if is_str method "tools/list" then (Some (handle_list_tools request), fs)
  else if is_str method "tools/call" then
    let '(response, fs') := handle_call_tool env fs request in
    (Some response, fs')
  else if is_str method "notifications/initialized" then (None, fs)
  else (Some (error_response (get_default request "id" (JInt 1)) (-32601)
                ("Method not found: " +:+ py_str env method)),
        fs).

(** One turn of the loop of [main] on a line of standard input: the
    values it prints, each by one [print(json.dumps(...))], so on a line of
    its own, and the file system afterwards. *)
Definition process_line (env : Env) (fs : filesystem) (line : string)
    : list json * filesystem :=
  let line := strip line in
  if negb (PyStr.truthy line) then ([], fs)
  else
    match loads env line with
    | JSONDecodeError msg =>
        ([error_response JNull (-32700) ("Parse error: " +:+ msg)], fs)
    | OtherException msg =>
        ([error_response JNull (-32603) ("Internal error: " +:+ msg)], fs)
    | Loaded (JObj request) =>
        match dispatch env fs request with
        | (Some response, fs') =>
            if truthy response then ([response], fs') else ([], fs')
        | (None, fs') => ([], fs')
        end
    | Loaded request =>
        ([error_response JNull (-32603)
            ("Internal error: " +:+ attribute_error env request "get")], fs)
    end.

(** The loop over the lines of standard input: everything printed, in
    order, and the file system at the end. *)
Fixpoint main (env : Env) (fs : filesystem) (stdin : list string)
    : list json * filesystem :=
  match stdin with
  | [] => ([], fs)
  | line :: rest =>
      let '(printed, fs') := process_line env fs line in
      let '(later, fs'') := main env fs' rest in
      (printed ++ later, fs'')
  end.

(** The line, once parsed, is a request whose method is
    [notifications/initialized]. *)
Definition is_initialized_notification (env : Env) (line : string) : bool :=
  match loads env (strip line) with
  | Loaded (JObj request) => is_str (get request "method") "notifications/initialized"
  | _ => false
  end.

End Server.

(** * Concrete environments for the examples *)

Module Demo.
Import PyStr Json.

(** An environment in which every child process exits with [returncode],
    having written [stdout] and [stderr]. *)
Definition world_exit (returncode : Z) (stdout stderr : string) : Engine.World :=
  Engine.mkWorld "0a1b2c3d" "4e5f6a7b" "8c9d0e1f"
    (fun name _ => Ok ("/tmp/tmpjester/" +:+ name))
    (fun _ => Ok "/tmp/tmpjester.py")
    (fun _ _ => Engine.Finished (Engine.Completed returncode stdout stderr))
    (fun _ _ => Ok (Engine.Completed returncode stdout stderr))
    (fun _ _ => Engine.Finished (Engine.Completed returncode stdout stderr))
    (fun _ => 0)
    "/usr/bin/python3"
    0 (1 # 10)
    (fun k => "'" +:+ k +:+ "'").

Definition quote : string := String (ascii_of_nat 34) EmptyString.

(** The line of an [initialized] notification. *)
Definition notification_line : string :=
  "{" +:+ quote +:+ "jsonrpc" +:+ quote +:+ ":" +:+ quote +:+ "2.0" +:+ quote
  +:+ "," +:+ quote +:+ "method" +:+ quote +:+ ":"
  +:+ quote +:+ "notifications/initialized" +:+ quote +:+ "}".

(** [n] opening brackets. *)
Fixpoint brackets (n : nat) : string :=
  match n with
  | O => EmptyString
  | S n' => String "[" (brackets n')
  end.

(** [json.loads] on the lines that the examples use. *)
Definition loads (s : string) : Server.loaded :=
  if String.eqb s "{}" then Server.Loaded (JObj [])
  else if String.eqb s "[]" then Server.Loaded (JArr [])
  else if String.eqb s "7" then Server.Loaded (JInt 7)
  else if String.eqb s notification_line
  then Server.Loaded (JObj [("jsonrpc", JStr "2.0");
                            ("method", JStr "notifications/initialized")])
  else if String.eqb s (brackets 2000)
  then Server.OtherException
         "maximum recursion depth exceeded while decoding a JSON array from a unicode string"
  else if String.eqb s "{not json"
  then Server.JSONDecodeError
         "Expecting property name enclosed in double quotes: line 1 column 2 (char 1)"
  else Server.JSONDecodeError "Expecting value: line 1 column 1 (char 0)".

(** The components of a path: the runs between its [/]. *)
Fixpoint components (current path : string) : list string :=
  match path with
  | EmptyString => [current]
  | String c path' =>
      if Ascii.eqb c "/" then current :: components EmptyString path'
      else components (current +:+ String c EmptyString) path'
  end.

(** The file of a relative path in a directory tree without links: the path
    without its empty and [.] components. *)
Definition file_of (path : string) : Server.file :=
  join "/" (List.filter (fun c => negb (String.eqb c "" || String.eqb c "."))
                        (components EmptyString path)).

Definition env : Server.Env :=
  Server.mkEnv loads (world_exit 0 "4" "")
    (fun _ => "Unknown command. Use /help to see available commands.")
    file_of
    (fun _ _ => None)
    (fun _ _ _ => None)
    (fun _ => "None")
    (fun _ name => "object has no attribute '" +:+ name +:+ "'")
    (fun _ => "argument of this type is not supported").

End Demo.

(** ** Shapes of results *)

Module Shape.
Import Engine.

(** The shape of a result of a container tier. *)
Definition shaped (r : ExecutionResult) : Prop :=
  In (method r) ["podman"; "podman_timeout"; "podman_error"]
  /\ (is_Some (container_id r) <-> method r = "podman")
  /\ (method r <> "podman" -> memory_usage r = 0)
  /\ (method r <> "podman" -> success r = false /\ output r = "").

End Shape.

(** ** Session cleanup: [PodmanCodeExecutor.cleanup_session] *)

Module Sessions.
Import PyStr Engine.

(** Every session of the registry: [list(self.containers.keys())], in the
    order of the keys (a [dict] keeps them in the order of insertion, which
    the map does not record). *)
Definition session_ids (self : Executor) : list string :=
  (map_to_list (containers self)).*1.

(** [cleanup_session]: the containers handed to [_kill_container], which
    swallows every failure, in order, and the executor afterwards.  A
    [session_id] that is [None] or empty counts as false. *)
Definition cleanup_session (self : Executor) (session_id : option string)
    : list string * Executor :=
  let everything := (session_ids self, with_containers self ∅) in
  match session_id with
  | Some id =>
      if truthy id then
        match containers self !! id with
        | Some _ => ([id], with_containers self (delete id (containers self)))
        | None => ([], self)
        end
      else everything
  | None => everything
  end.

End Sessions.

(** ** The dashboard's view of the inspector, and the wrapped handlers *)

Module Dashboard.
Import Json Inspector.

(** [l[-n:]] for a positive [n]: the last [n] items, or all of them. *)
Definition last_items {A} (n : nat) (l : list A) : list A :=
  drop (length l - n) l.

(** The route [GET /api/messages]: the last hundred messages and the
    metrics. *)
Definition get_messages (self : MCPInspector) : list MCPMessage * Metrics :=
  (last_items 100 (messages self), performance_metrics self).

(** How a wrapped handler ended: with the text of its result
    ([str(result)[:500]], [None] for a result that counts as false), or with
    an exception, of which [error_msg] is the type and text. *)
Inductive handled : Type :=
  | Returned (result : option string)
  | Raised (error_msg : string).

(** The two [log_message] calls of [_wrap_handler]'s [wrapped_handler];
    [execution_time] is [(time.time() - start_time) * 1000]. *)
Definition wrapped_handler (self : MCPInspector) (method args : string)
    (start finish execution_time : Q) (h : handled) : MCPInspector :=
  let self := log_message self start "inbound"
                [("method", JStr method); ("args", JStr args)] None None in
  match h with
  | Returned result =>
      log_message self finish "outbound"
        [("method", JStr method);
         ("result", match result with Some r => JStr r | None => JNull end)]
        (Some execution_time) None
  | Raised error_msg =>
      log_message self finish "outbound"
        [("method", JStr method); ("error", JStr error_msg)]
        (Some execution_time) (Some error_msg)
  end.

(** One handler call, as the wrapper sees it. *)
Record handler_call : Type := mkCall {
  call_args : string;
  call_start : Q;
  call_finish : Q;
  call_time : Q;
  call_end : handled
}.

(** A series of calls of the wrapped handler of one method. *)
Definition wrapped_calls (method : string) (calls : list handler_call)
    (self : MCPInspector) : MCPInspector :=
  fold_left (fun self c =>
               wrapped_handler self method (call_args c) (call_start c)
                               (call_finish c) (call_time c) (call_end c))
            calls self.

(** The messages a sequence of inspector calls records, oldest first. *)
Fixpoint recorded_messages (calls : list call) (recording : bool) : list MCPMessage :=
  match calls with
  | [] => []
  | Log now direction content execution_time error :: rest =>
      if recording
      then message_of now direction content execution_time error
           :: recorded_messages rest recording
      else recorded_messages rest recording
  | Clear :: rest => recorded_messages rest recording
  | Toggle :: rest => recorded_messages rest (negb recording)
  end.

(** The recording flag after a sequence of calls. *)
Definition recording_after (calls : list call) (recording : bool) : bool :=
  fold_left (fun r c => match c with Toggle => negb r | _ => r end) calls recording.

(** The messages an inspector without a cap would hold after a sequence
    of calls, starting from the buffer [held]. *)
Fixpoint buffered (calls : list call) (recording : bool) (held : list MCPMessage)
    : list MCPMessage :=
  match calls with
  | [] => held
  | Log now direction content execution_time error :: rest =>
      if recording
      then buffered rest recording
             (held ++ [message_of now direction content execution_time error])
      else buffered rest recording held
  | Clear :: rest => buffered rest recording []
  | Toggle :: rest => buffered rest (negb recording) held
  end.

(** The entry of a method in [method_stats], with the zeros [_update_metrics]
    starts a new method from. *)
Definition stats_of (m : Metrics) (name : string) : MethodStats :=
  default (mkMethodStats 0 0 0 0) (method_stats m !! name).

Definition has_error (message : MCPMessage) : bool := truthy_str (error message).

Definition has_method (name : string) (message : MCPMessage) : bool :=
  match method message with
  | Some name' => String.eqb name' name
  | None => false
  end.

End Dashboard.

(** ** The command router: [IntegratedSlashCommands] *)

Module Router.
Import PyStr Engine Analyzer.

(** [str.split()] with no argument: the runs of characters that are not
    white space. *)
Fixpoint split (s : string) : list string :=
  match s with
  | EmptyString => []
  | String c s' =>
      if is_space c then split s'
      else
        match s' with
        | EmptyString => [String c EmptyString]
        | String c' _ =>
            if is_space c' then String c EmptyString :: split s'
            else
              match split s' with
              | token :: tokens => String c token :: tokens
              | [] => [String c EmptyString]
              end
        end
  end.

(** [s[1:]]. *)
Definition after_first (s : string) : string :=
  match s with
  | EmptyString => EmptyString
  | String _ s' => s'
  end.

(** [s.replace(c, '')] for one character [c]. *)
Fixpoint remove_char (c : ascii) (s : string) : string :=
  match s with
  | EmptyString => EmptyString
  | String a s' => if Ascii.eqb a c then remove_char c s' else String a (remove_char c s')
  end.

(** [str.isdigit], for code points below 256: the ten digits and the
    superscripts one, two and three; the empty string has none. *)
Definition is_digit_char (c : ascii) : bool :=
  let n := nat_of_ascii c in
  ((48 <=? n) && (n <=? 57) || (n =? 178) || (n =? 179) || (n =? 185))%nat.

Fixpoint all_chars (p : ascii -> bool) (s : string) : bool :=
  match s with
  | EmptyString => true
  | String c s' => p c && all_chars p s'
  end.

Definition isdigit (s : string) : bool := truthy s && all_chars is_digit_char s.

Definition is_decimal_char (c : ascii) : bool :=
  let n := nat_of_ascii c in ((48 <=? n) && (n <=? 57))%nat.

(** [int(s)] on a string of decimal digits. *)
Definition int_of_digits (s : string) : Z :=
  fold_left (fun acc c => 10 * acc + Z.of_nat (nat_of_ascii c - 48))
            (list_ascii_of_string s) 0.

Inductive CommandCategory : Type :=
  | EXECUTION | QUANTUM | PERFORMANCE | SECURITY | SYSTEM | LEARNING | DEMO | PODMAN.

(** The bound methods the registry holds as [handler]. *)
Inductive handler_id : Type :=
  | handle_run | handle_container | handle_secure_run | handle_dev_run
  | handle_quantum | handle_quantum_container | handle_benchmark
  | handle_podman_status | handle_cleanup | handle_status | handle_help.

Record SlashCommand : Type := mkCommand {
  name : string;
  description : string;
  category : CommandCategory;
  usage : string;
  examples : list string;
  handler : handler_id;
  aliases : list string
}.

(** [self.commands] and [self.aliases]. *)
Record Registry : Type := mkRegistry {
  commands : gmap string SlashCommand;
  alias_names : gmap string string
}.

(** The list [_register_commands] builds. *)
Definition slash_commands : list SlashCommand :=
  [ mkCommand "run" "Execute code with quantum debugging" EXECUTION
      "/run <language> <code>"
      ["/run python print('Hello!')"; "/run js console.log('Hi!')"]
      handle_run ["exec"; "execute"];
    mkCommand "container" "Execute code in secure Podman container" PODMAN
      "/container <security_level> <language> <code>"
      ["/container isolation python print('Hello!')";
       "/container persistent js console.log('test')"]
      handle_container ["podman"; "docker"];
    mkCommand "secure_run" "Execute code with maximum security isolation" SECURITY
      "/secure_run <language> <code>"
      ["/secure_run python import os; print(os.listdir('/'))"]
      handle_secure_run ["secure"; "isolated"];
    mkCommand "dev_run" "Execute code in development-friendly container" PODMAN
      "/dev_run <language> <code>"
      ["/dev_run python import requests; print('Network allowed')"]
      handle_dev_run ["dev"; "development"];
    mkCommand "quantum" "Run quantum debugging on algorithm challenge" QUANTUM
      "/quantum <task_description>"
      ["/quantum find fastest sorting algorithm"; "/quantum optimize prime detection"]
      handle_quantum ["q"; "qd"];
    mkCommand "quantum_container" "Run quantum debugging in isolated containers" QUANTUM
      "/quantum_container <task_description>"
      ["/quantum_container test array algorithms"; "/quantum_container benchmark sorting"]
      handle_quantum_container ["qc"; "quantum_secure"];
    mkCommand "benchmark" "Benchmark code performance with statistical analysis" PERFORMANCE
      "/benchmark <language> <code> [iterations]"
      ["/benchmark python sum(i*i for i in range(1000))"]
      handle_benchmark ["perf"; "speed"];
    mkCommand "podman_status" "Check Podman system status and capabilities" PODMAN
      "/podman_status [component]"
      ["/podman_status"; "/podman_status containers"]
      handle_podman_status ["pod_status"; "container_status"];
    mkCommand "cleanup" "Cleanup containers and temporary resources" SYSTEM
      "/cleanup [session_id]"
      ["/cleanup"; "/cleanup claude-session-python"]
      handle_cleanup ["clean"; "reset"];
    mkCommand "status" "Show Claude-Jester system status" SYSTEM
      "/status [component]"
      ["/status"; "/status podman"]
      handle_status ["info"; "health"];
    mkCommand "help" "Show available commands" SYSTEM
      "/help [command]"
      ["/help"; "/help quantum"]
      handle_help ["h"; "?"] ].

(** One turn of the registration loop. *)
Definition register (reg : Registry) (cmd : SlashCommand) : Registry :=
  mkRegistry (<[ name cmd := cmd ]> (commands reg))
             (fold_left (fun names alias => <[ alias := name cmd ]> names)
                        (aliases cmd) (alias_names reg)).

(** The registration loop of [_register_commands], on any list of
    commands. *)
Definition register_all (cmds : list SlashCommand) : Registry :=
  fold_left register cmds (mkRegistry ∅ ∅).

Definition _register_commands : Registry := register_all slash_commands.

(** What the head of [process_command] makes of a text. *)
Inductive resolution : Type :=
  | NotSlash
  | EmptyCommand
  | Unknown (cmd_name : string)
  | Known (cmd_name : string) (command : SlashCommand) (args : list string).

Definition resolve (reg : Registry) (text : string) : resolution :=
  if negb (startswith text "/") then NotSlash
  else
    match split (after_first text) with
    | [] => EmptyCommand
    | first :: args =>
        let cmd_name := lower first in
        let cmd_name := default cmd_name (alias_names reg !! cmd_name) in
        match commands reg !! cmd_name with
        | None => Unknown cmd_name
        | Some command => Known cmd_name command args
        end
    end.

(** Updates of the mutable fields. *)
Definition with_stats (self : IntegratedSlashCommands) (s : Stats)
    : IntegratedSlashCommands :=
  mkSlash (podman_executor self) (history self) s.

Definition with_executor (self : IntegratedSlashCommands) (e : Executor)
    : IntegratedSlashCommands :=
  mkSlash (Some e) (history self) (stats self).

Definition add_commands_executed (s : Stats) (n : Z) : Stats :=
  mkStats (commands_executed s + n) (quantum_tests_run s)
          (performance_gains_found s) (bugs_prevented s) (containers_used s)
          (security_violations_prevented s).

Definition add_quantum_tests_run (s : Stats) (n : Z) : Stats :=
  mkStats (commands_executed s) (quantum_tests_run s + n)
          (performance_gains_found s) (bugs_prevented s) (containers_used s)
          (security_violations_prevented s).

Definition add_containers_used (s : Stats) (n : Z) : Stats :=
  mkStats (commands_executed s) (quantum_tests_run s)
          (performance_gains_found s) (bugs_prevented s) (containers_used s + n)
          (security_violations_prevented s).

Definition add_security_violations_prevented (s : Stats) (n : Z) : Stats :=
  mkStats (commands_executed s) (quantum_tests_run s)
          (performance_gains_found s) (bugs_prevented s) (containers_used s)
          (security_violations_prevented s + n).

(** A handler: arguments, full command, state; the reply or the exception,
    and the state afterwards. *)
Definition handler_fn : Type :=
  list string -> string -> IntegratedSlashCommands
  -> outcome string * IntegratedSlashCommands.

(** [process_command], for any registry and any handlers; [now] is
    [time.time()]. *)
Definition process_command (reg : Registry) (handlers : handler_id -> handler_fn)
    (now : Q) (self : IntegratedSlashCommands) (text : string)
    : string * IntegratedSlashCommands :=
  match resolve reg text with
  | NotSlash => ("Not a slash command. Use /help to see available commands.", self)
  | EmptyCommand => ("Empty command. Use /help for assistance.", self)
  | Unknown cmd_name =>
      ("Unknown command: " +:+ cmd_name
       +:+ ". Use /help to see available commands.", self)
  | Known cmd_name command args =>
      let self :=
        mkSlash (podman_executor self)
                (history self ++ [mkHistoryEntry now text args])
                (add_commands_executed (stats self) 1) in
      match handlers (handler command) args text self with
      | (Ok result, self) => (result, self)
      | (Raise msg, self) =>
          ("Error executing command " +:+ cmd_name +:+ ": " +:+ msg, self)
      end
  end.

(** *** The handlers *)

(** The environment of a handler.  A reply that the source decorates with
    glyphs outside the character range of the embedding, or fills with
    formatted floats or with what a child process printed, is taken from the
    environment as a function of what the source builds it from; the plain
    replies (usage, refusals, the help of one command) are spelled out. *)
Record Env : Type := mkEnv {
  (** the environment of the [execute_code] call of a handler *)
  world : World;
  (** the report on an execution: handler, findings of the analyzer, result *)
  execution_report : handler_id -> list string -> ExecutionResult -> string;
  (** any other decorated reply: handler, arguments, state *)
  decorated : handler_id -> list string -> IntegratedSlashCommands -> string;
  (** [str(e)] of the [ValueError] of [int(s)] *)
  value_error : string -> string
}.

Definition tiers : list string := ["isolation"; "persistent"; "development"].

Definition container_usage : string :=
  "Usage: /container <security_level> <language> <code>" +:+ LF +:+ LF
  +:+ "Security Levels:" +:+ LF
  +:+ "- isolation: Maximum security, ephemeral container" +:+ LF
  +:+ "- persistent: Reusable container for session" +:+ LF
  +:+ "- development: More permissive for development" +:+ LF +:+ LF
  +:+ "Example: /container isolation python print('Hello from container!')".

(** The part the three executing handlers share: count the container,
    run the code, report. *)
Definition run_in_container (env : Env) (id : handler_id)
    (self : IntegratedSlashCommands) (executor : Executor)
    (issues : list string) (code language tier : string)
    : outcome string * IntegratedSlashCommands :=
  let '(result, executor) := execute_code executor (world env) code language tier in
  (Ok (execution_report env id issues result), with_executor self executor).

Definition _handle_run (env : Env) : handler_fn := fun args full_command self =>
  if (length args <? 2)%nat
  then (Ok ("Usage: /run <language> <code>" +:+ LF
            +:+ "Example: /run python print('Hello World!')"), self)
  else (Ok (decorated env handle_run args self), self).

Definition _handle_container (env : Env) : handler_fn := fun args full_command self =>
  match args with
  | security_level :: language :: code =>
      if (length args <? 3)%nat then (Ok container_usage, self)
      else
        let security_level := lower security_level in
        let language := lower language in
        let code := join " " code in
        if negb (existsb (String.eqb security_level) tiers)
        then (Ok "Invalid security level. Use: isolation, persistent, or development",
              self)
        else
          match podman_executor self with
          | Some executor =>
              let self := with_stats self (add_containers_used (stats self) 1) in
              run_in_container env handle_container self executor []
                               code language security_level
          | None => (Ok (decorated env handle_container args self), self)
          end
  | _ => (Ok container_usage, self)
  end.

Definition _handle_secure_run (env : Env) : handler_fn := fun args full_command self =>
  match args with
  | language :: code =>
      if (length args <? 2)%nat
      then (Ok ("Usage: /secure_run <language> <code>" +:+ LF
                +:+ "Example: /secure_run python import os; print(os.listdir('/'))"),
            self)
      else
        let language := lower language in
        let code := join " " code in
        let '(security_issues, self) := _analyze_security self code in
        match podman_executor self with
        | Some executor =>
            let self := with_stats self (add_containers_used (stats self) 1) in
            let self :=
              match security_issues with
              | [] => self
              | _ => with_stats self
                       (add_security_violations_prevented (stats self) 1)
              end in
            run_in_container env handle_secure_run self executor security_issues
                             code language "isolation"
        | None => (Ok (decorated env handle_secure_run args self), self)
        end
  | _ => (Ok ("Usage: /secure_run <language> <code>" +:+ LF
              +:+ "Example: /secure_run python import os; print(os.listdir('/'))"),
          self)
  end.

Definition _handle_dev_run (env : Env) : handler_fn := fun args full_command self =>
  match args with
  | language :: code =>
      if (length args <? 2)%nat
      then (Ok ("Usage: /dev_run <language> <code>" +:+ LF
                +:+ "Example: /dev_run python import requests; print('Network access allowed')"),
            self)
      else
        let language := lower language in
        let code := join " " code in
        match podman_executor self with
        | Some executor =>
            let self := with_stats self (add_containers_used (stats self) 1) in
            run_in_container env handle_dev_run self executor []
                             code language "development"
        | None => (Ok (decorated env handle_dev_run args self), self)
        end
  | _ => (Ok ("Usage: /dev_run <language> <code>" +:+ LF
              +:+ "Example: /dev_run python import requests; print('Network access allowed')"),
          self)
  end.

Definition _handle_quantum (env : Env) : handler_fn := fun args full_command self =>
  match args with
  | [] => (Ok ("Usage: /quantum <task_description>" +:+ LF
               +:+ "Example: /quantum find fastest way to sort array"), self)
  | _ =>
      let self := with_stats self (add_quantum_tests_run (stats self) 1) in
      (Ok (decorated env handle_quantum args self), self)
  end.

Definition _handle_quantum_container (env : Env) : handler_fn :=
  fun args full_command self =>
  match args with
  | [] => (Ok ("Usage: /quantum_container <task_description>" +:+ LF
               +:+ "Example: /quantum_container test sorting algorithms"), self)
  | _ =>
      let self := with_stats self (add_quantum_tests_run (stats self) 1) in
      let self := with_stats self (add_containers_used (stats self) 3) in
      (Ok (decorated env handle_quantum_container args self), self)
  end.

Definition _handle_benchmark (env : Env) : handler_fn := fun args full_command self =>
  if (length args <? 2)%nat
  then (Ok ("Usage: /benchmark <language> <code> [iterations]" +:+ LF
            +:+ "Example: /benchmark python sum(i*i for i in range(1000))"), self)
  else
    let last_arg := List.last args "" in
    if isdigit last_arg && negb (all_chars is_decimal_char last_arg)
    then (Raise (value_error env last_arg), self)
    else (Ok (decorated env handle_benchmark args self), self).

Definition _handle_podman_status (env : Env) : handler_fn :=
  fun args full_command self =>
  (Ok (decorated env handle_podman_status args self), self).

Definition _handle_cleanup (env : Env) : handler_fn := fun args full_command self =>
  let session_id := head args in
  match podman_executor self with
  | Some executor =>
      let '(_, executor) := Sessions.cleanup_session executor session_id in
      let self := with_executor self executor in
      (Ok (decorated env handle_cleanup args self), self)
  | None => (Ok (decorated env handle_cleanup args self), self)
  end.

Definition _handle_status (env : Env) : handler_fn := fun args full_command self =>
  (Ok (decorated env handle_status args self), self).

(** The help of one command. *)
Definition command_help (cmd : SlashCommand) : string :=
  let examples := join LF (map (fun ex => "  " +:+ ex) (examples cmd)) in
  let aliases :=
    match aliases cmd with
    | [] => ""
    | _ => LF +:+ "Aliases: " +:+ join ", " (aliases cmd)
    end in
  "**/" +:+ name cmd +:+ "** - " +:+ description cmd +:+ LF
  +:+ "**Usage:** " +:+ usage cmd +:+ LF
  +:+ "**Examples:**" +:+ LF
  +:+ examples +:+ aliases.

Definition _handle_help (env : Env) (reg : Registry) : handler_fn :=
  fun args full_command self =>
  match args with
  | first :: _ =>
      let cmd_name := remove_char "/" first in
      match commands reg !! cmd_name with
      | Some cmd => (Ok (command_help cmd), self)
      | None => (Ok (decorated env handle_help args self), self)
      end
  | [] => (Ok (decorated env handle_help args self), self)
  end.

(** The bound method behind each registry entry. *)
Definition handlers (env : Env) (reg : Registry) (id : handler_id) : handler_fn :=
  match id with
  | handle_run => _handle_run env
  | handle_container => _handle_container env
  | handle_secure_run => _handle_secure_run env
  | handle_dev_run => _handle_dev_run env
  | handle_quantum => _handle_quantum env
  | handle_quantum_container => _handle_quantum_container env
  | handle_benchmark => _handle_benchmark env
  | handle_podman_status => _handle_podman_status env
  | handle_cleanup => _handle_cleanup env
  | handle_status => _handle_status env
  | handle_help => _handle_help env reg
  end.

(** [process_command] of the server's router. *)
Definition serve (env : Env) (now : Q) (self : IntegratedSlashCommands)
    (text : string) : string * IntegratedSlashCommands :=
  process_command _register_commands (handlers env _register_commands) now self text.

(** A series of commands, each with the time it is received at. *)
Definition serve_all (env : Env) (inputs : list (Q * string))
    (self : IntegratedSlashCommands) : IntegratedSlashCommands :=
  fold_left (fun self input => (serve env input.1 self input.2).2) inputs self.

(** *** Notions for the statements *)

(** A token: not empty, no white space. *)
Definition is_token (s : string) : Prop :=
  s <> "" /\ all_chars (fun c => negb (is_space c)) s = true.

(** The only white space is the space character. *)
Definition single_spaced (s : string) : Prop :=
  all_chars (fun c => negb (is_space c) || Ascii.eqb c " ") s = true.

(** Every counter of [after] is at least that of [before]. *)
Definition stats_le (before after : Stats) : Prop :=
  commands_executed before <= commands_executed after
  /\ quantum_tests_run before <= quantum_tests_run after
  /\ performance_gains_found before <= performance_gains_found after
  /\ bugs_prevented before <= bugs_prevented after
  /\ containers_used before <= containers_used after
  /\ security_violations_prevented before <= security_violations_prevented after.

(** The state [process_command] hands to the handler of a dispatched
    command. *)
Definition recorded (now : Q) (text : string) (args : list string)
    (self : IntegratedSlashCommands) : IntegratedSlashCommands :=
  mkSlash (podman_executor self)
          (history self ++ [mkHistoryEntry now text args])
          (add_commands_executed (stats self) 1).

(** The registry is well formed: every command is filed under its own
    name, and every alias leads to a name that is filed. *)
Definition well_formed (reg : Registry) : Prop :=
  (forall key cmd, commands reg !! key = Some cmd -> name cmd = key)
  /\ (forall alias target, alias_names reg !! alias = Some target ->
        is_Some (commands reg !! target)).

(** The history entries a series of commands leaves: one for each text
    that is dispatched to a handler, in order. *)
Definition history_entries (inputs : list (Q * string)) : list HistoryEntry :=
  flat_map (fun input =>
              match resolve _register_commands input.2 with
              | Known _ _ args => [mkHistoryEntry input.1 input.2 args]
              | _ => []
              end) inputs.

End Router.

(** ** Requests to the tool surface *)

Module Requests.
Import PyStr Json Server.

(** The request is a call of [tool] with the object [arguments]: what
    [handle_call_tool] reads from it. *)
Definition is_tool_call (request : dict) (tool : string) (arguments : dict) : Prop :=
  exists params,
    get_default request "params" (JObj []) = JObj params
    /\ get params "name" = JStr tool
    /\ get_default params "arguments" (JObj []) = JObj arguments.

(** [arguments.get(key, "")] is the string [value]. *)
Definition text_argument (arguments : dict) (key value : string) : Prop :=
  get_default arguments key (JStr "") = JStr value.

(** A [tools/call] request as the protocol writes it. *)
Definition tool_call (id : json) (tool : string) (arguments : dict) : dict :=
  [("jsonrpc", JStr "2.0"); ("id", id); ("method", JStr "tools/call");
   ("params", JObj [("name", JStr tool); ("arguments", JObj arguments)])].

(** The key is one of the keys of the dict: [key in d]. *)
Definition has_key (d : dict) (key : string) : bool :=
  existsb (fun item => String.eqb item.1 key) d.

(** The languages the [tools/list] response offers for [execute_code]. *)
Definition advertised_languages : list json :=
  match member (handle_list_tools []) "result" with
  | JObj result =>
      match get result "tools" with
      | JArr (tool :: _) =>
          match member (member (member (member tool "inputSchema") "properties")
                               "language") "enum" with
          | JArr languages => languages
          | _ => []
          end
      | _ => []
      end
  | _ => []
  end.

(** The response is a JSON-RPC 2.0 envelope with a result and no error, or
    with an error of one of the three codes and no result. *)
Definition envelope (response : json) : Prop :=
  member response "jsonrpc" = JStr "2.0"
  /\ ((member response "result" <> JNull /\ member response "error" = JNull)
      \/ (member response "result" = JNull
          /\ exists code message,
               member response "error"
               = JObj [("code", JInt code); ("message", JStr message)]
               /\ In code [-32700; -32601; -32603])).

End Requests.

(** ** Sample values *)

Module Samples.
Import Engine.

(** An executor with two sessions. *)
Definition two_sessions : Executor :=
  with_containers (init true)
    {[ "claude-session-python" := mkSession 0 "python" "4f2a";
       "claude-session-bash" := mkSession 1 "bash" "9c1d" ]}.

End Samples.

(** * The embedding on concrete inputs *)

Section Examples.
Import PyStr Json.

Example strip_line : strip ("  {} " +:+ LF) = "{}".
Proof. reflexivity. Qed.

Example strip_keeps_inner_space : strip " a b " = "a b".
Proof. reflexivity. Qed.

Example contains_inside : contains ".." "a/../b" = true.
Proof. reflexivity. Qed.

Example contains_single_dot : contains ".." "a.b.c" = false.
Proof. reflexivity. Qed.

Example errors_heading_is_not_error : contains "Error:" ("Errors:" +:+ LF +:+ "x") = false.
Proof. reflexivity. Qed.

Example startswith_slash : startswith "/etc/passwd" "/" = true.
Proof. reflexivity. Qed.

Example lower_mixed : lower "PyThOn" = "python".
Proof. reflexivity. Qed.

Example str_of_int_30 : str_of_int 30 = "30".
Proof. reflexivity. Qed.

(** Scenario 2 of the specification on the fallback path. *)
Example fallback_prints_four :
  let r := (Engine.execute_code (Engine.init false) (Demo.world_exit 0 ("4" +:+ LF) "")
              "print(2+2)" "python" "isolation").1 in
  Engine.output r = "Output:" +:+ LF +:+ "4" /\ Engine.success r = true
  /\ Engine.container_id r = None.
Proof. vm_compute. repeat split; reflexivity. Qed.

(** A language without a base image fails in the container tiers with the
    text of the [KeyError]. *)
Example isolation_unknown_language :
  let r := (Engine.execute_code (Engine.init true) (Demo.world_exit 0 "" "")
              "puts 1" "ruby" "isolation").1 in
  Engine.method r = "podman_error"
  /\ Engine.error r = "Container execution failed: 'ruby'"
  /\ Engine.security_level r = "isolation".
Proof. vm_compute. repeat split; reflexivity. Qed.

(** In the [persistent] tier the same language fails while the session is
    created, outside the [try]: the exception reaches [execute_code], whose
    result has the default security level. *)
Example persistent_unknown_language :
  let r := (Engine.execute_code (Engine.init true) (Demo.world_exit 0 "" "")
              "puts 1" "ruby" "persistent").1 in
  Engine.method r = "podman_error" /\ Engine.security_level r = "container".
Proof. vm_compute. repeat split; reflexivity. Qed.

(** A [persistent] call registers its session. *)
Example persistent_registers_session :
  let '(r, self) := Engine.execute_code (Engine.init true)
                      (Demo.world_exit 0 ("4" +:+ LF) "")
                      "print(2+2)" "python" "persistent" in
  Engine.security_level r = "persistent"
  /\ Engine.container_id r = Some "claude-session-python"
  /\ Engine.language <$> (Engine.containers self !! "claude-session-python")
     = Some "python".
Proof. vm_compute. repeat split; reflexivity. Qed.

(** Scenario 1 of the specification. *)
Example initialize_response :
  (Server.dispatch Demo.env ∅
     [("jsonrpc", JStr "2.0"); ("id", JInt 1); ("method", JStr "initialize");
      ("params", JObj [])]).1
  = Some (Server.result_response (JInt 1)
      (JObj [("protocolVersion", JStr "2024-11-05");
             ("capabilities", JObj [("tools", JObj [])]);
             ("serverInfo", JObj [("name", JStr "claude-jester-podman");
                                  ("version", JStr "3.0.0")])])).
Proof. reflexivity. Qed.

Example notification_is_silent :
  Server.process_line Demo.env ∅ (Demo.notification_line +:+ LF) = ([], ∅).
Proof. vm_compute. reflexivity. Qed.

Example non_object_request :
  (Server.process_line Demo.env ∅ "7").1
  = [Server.error_response JNull (-32603)
       "Internal error: object has no attribute 'get'"].
Proof. vm_compute. reflexivity. Qed.

Example missing_tool_name :
  (Server.handle_call_tool Demo.env ∅
     [("id", JInt 3); ("method", JStr "tools/call"); ("params", JObj [])]).1
  = Server.error_response (JInt 3) (-32603) "Internal error: Tool name is required".
Proof. vm_compute. reflexivity. Qed.

End Examples.

(** * Properties of the execution engine *)

Section EngineProperties.
Import PyStr Engine.

Lemma well_tagged_failed r : success r = false -> well_tagged r.
Proof. intros H Hs. congruence. Qed.

Lemma well_tagged_with_execution_time r t :
  well_tagged r -> well_tagged (with_execution_time r t).
Proof. unfold well_tagged. destruct r; simpl. auto. Qed.

Lemma isolated_well_tagged self w code language :
  well_tagged (_execute_isolated self w code language).
Proof.
  unfold _execute_isolated.
  destruct (temp_code_file w _ code); [|by apply well_tagged_failed].
  destruct (base_images self !! language); [|by apply well_tagged_failed].
  destruct (run_deadline w _ _) as [[rc out err]| | |];
    try (by apply well_tagged_failed).
  intros _. by left.
Qed.

Lemma development_well_tagged self w code language :
  well_tagged (_execute_development self w code language).
Proof.
  unfold _execute_development.
  destruct (temp_code_file w _ code); [|by apply well_tagged_failed].
  destruct (base_images self !! language); [|by apply well_tagged_failed].
  destruct (run_deadline w _ _) as [[rc out err]| | |];
    try (by apply well_tagged_failed).
  intros _. by left.
Qed.

Lemma persistent_body_well_tagged self w session_id code language r :
  persistent_body self w session_id code language = Ok r -> well_tagged r.
Proof.
  unfold persistent_body.
  destruct (run_stdin w _ code) as [[rc out err]|]; [|done].
  destruct (negb (rc =? 0)); [done|].
  destruct (run_deadline w _ _) as [[rc' out' err']| | |]; try done.
  - intros [= <-] _. by left.
  - intros [= <-]. by apply well_tagged_failed.
Qed.

Lemma persistent_well_tagged self w code language r :
  (_execute_persistent self w code language).1 = Ok r -> well_tagged r.
Proof.
  unfold _execute_persistent.
  destruct (match containers self !! _ with Some _ => _ | None => _ end)
    as [self'|]; [|done].
  destruct (persistent_body self' w _ code language) eqn:Hbody; simpl.
  - intros [= <-]. by eapply persistent_body_well_tagged.
  - intros [= <-]. apply isolated_well_tagged.
Qed.

Lemma fallback_text_ok w code language :
  exists text, fallback_text w code language = Ok text.
Proof.
  unfold fallback_text. repeat case_match; eauto.
Qed.

Lemma fallback_tags w code language :
  let r := _fallback_execution w code language in
  security_level r = "subprocess" /\ method r = "fallback".
Proof.
  unfold _fallback_execution.
  destruct (fallback_text_ok w code language) as [text ->]. by simpl.
Qed.

(** C1, as amended.  Whatever the code, the language, the tier, the state of
    the executor and the behaviour of the container runtime, a result of
    [execute_code] that reports success is tagged [podman] or [fallback]:
    the tags [podman_timeout], [podman_error] and [fallback_error] only come
    with [success = false].  (The converse fails; see
    [failed_container_run_is_tagged_podman].) *)
Theorem execute_code_success_tag self w code language tier :
  let r := (execute_code self w code language tier).1 in
  success r = true -> method r = "podman" \/ method r = "fallback".
Proof.
  unfold execute_code.
  destruct (negb (podman_available self)); simpl.
  { intros _. right. apply fallback_tags. }
  destruct (String.eqb tier "isolation").
  { apply well_tagged_with_execution_time, isolated_well_tagged. }
  destruct (String.eqb tier "persistent").
  { destruct (_execute_persistent self w code language) as [[r|msg] self'] eqn:E.
    - apply well_tagged_with_execution_time.
      apply (persistent_well_tagged self w code language). by rewrite E.
    - by apply well_tagged_failed. }
  destruct (String.eqb tier "development").
  { apply well_tagged_with_execution_time, development_well_tagged. }
  apply well_tagged_with_execution_time, isolated_well_tagged.
Qed.

Lemma execute_code_success_tag_witness :
  let r := (execute_code (init true) (Demo.world_exit 0 "4" "")
                         "print(2+2)" "python" "isolation").1 in
  success r = true /\ (method r = "podman" \/ method r = "fallback").
Proof.
  split.
  - vm_compute. reflexivity.
  - apply (execute_code_success_tag (init true) (Demo.world_exit 0 "4" "")
             "print(2+2)" "python" "isolation").
    vm_compute. reflexivity.
Defined.

(** C1, as stated, fails: with the runtime available, a program that exits
    with status 1 in an [isolation] container gives a result tagged [podman]
    whose [success] is false. *)
Lemma failed_container_run_is_tagged_podman :
  let r := (execute_code (init true) (Demo.world_exit 1 "" "SystemExit: 1")
                         "raise SystemExit(1)" "python" "isolation").1 in
  method r = "podman" /\ success r = false /\
  ~ (success r = true <-> method r = "podman" \/ method r = "fallback").
Proof.
  vm_compute. split; [reflexivity|]. split; [reflexivity|].
  intros [_ H]. specialize (H (or_introl eq_refl)). discriminate H.
Qed.

(** The same on the fallback path: a program that times out is tagged
    [fallback] with [success] false. *)
Example timed_out_fallback_is_tagged_fallback :
  let w := mkWorld "" "" "" (fun _ _ => Raise "") (fun _ => Ok "/tmp/t.py")
             (fun _ _ => TimedOut) (fun _ _ => Raise "") (fun _ _ => TimedOut)
             (fun _ => 0) "python3" 0 30 (fun k => k) in
  let r := (execute_code (init false) w "while True: pass" "python" "isolation").1 in
  method r = "fallback" /\ success r = false
  /\ error r = "Error: Code execution timed out (30 seconds)".
Proof. vm_compute. repeat split; reflexivity. Qed.

(** C7.  When the executor was built with the runtime unavailable, every
    [execute_code] call, whatever the tier, is the subprocess fallback: it
    returns what [_fallback_execution] returns and leaves the executor as it
    was; the result has security level [subprocess] and is tagged [fallback]
    or [fallback_error]. *)
Theorem unavailable_runtime_takes_fallback self w code language tier :
  podman_available self = false ->
  execute_code self w code language tier
    = (_fallback_execution w code language, self)
  /\ security_level (execute_code self w code language tier).1 = "subprocess"
  /\ (method (execute_code self w code language tier).1 = "fallback"
      \/ method (execute_code self w code language tier).1 = "fallback_error").
Proof.
  intros Hun. unfold execute_code. rewrite Hun. simpl.
  destruct (fallback_tags w code language) as [Hlevel Htag].
  split; [reflexivity|]. split; [exact Hlevel|]. left. exact Htag.
Qed.

Lemma unavailable_runtime_takes_fallback_witness :
  podman_available (init false) = false
  /\ security_level (execute_code (init false) (Demo.world_exit 0 "4" "")
                       "print(2+2)" "python" "persistent").1 = "subprocess".
Proof.
  split.
  - reflexivity.
  - apply (unavailable_runtime_takes_fallback (init false)
             (Demo.world_exit 0 "4" "") "print(2+2)" "python" "persistent").
    reflexivity.
Defined.

(** C8.  A tier that is none of [isolation], [persistent] and [development]
    is served as [isolation]: in the same environment and from the same
    executor state the two calls return the same result and leave the same
    state. *)
Theorem unknown_tier_is_isolation self w code language tier :
  tier <> "isolation" -> tier <> "persistent" -> tier <> "development" ->
  execute_code self w code language tier
    = execute_code self w code language "isolation".
Proof.
  intros H1 H2 H3. unfold execute_code.
  apply String.eqb_neq in H1, H2, H3. rewrite H1, H2, H3.
  reflexivity.
Qed.

Lemma unknown_tier_is_isolation_witness :
  execute_code (init true) (Demo.world_exit 0 "4" "") "print(2+2)" "python" "paranoid"
  = execute_code (init true) (Demo.world_exit 0 "4" "") "print(2+2)" "python" "isolation".
Proof.
  apply (unknown_tier_is_isolation (init true) (Demo.world_exit 0 "4" "")
           "print(2+2)" "python" "paranoid"); discriminate.
Defined.

(** The test ["Error:" in result] on the text for an unsupported language
    is the test on the language itself: the fixed part has no capital E. *)
Lemma unsupported_text_contains_error language :
  contains "Error:" ("Unsupported language: " +:+ language)
  = contains "Error:" language.
Proof. reflexivity. Qed.

(** C10, as amended.  For a language outside [python], [javascript], [js]
    and [bash] the fallback path returns a result tagged [fallback] whose text
    is [Unsupported language: <language>]; the result reports success and
    carries the text as its output exactly when the language does not itself
    contain [Error:], and otherwise reports failure with an empty output and
    the text as its error. *)
Theorem unsupported_language_fallback w code language :
  language <> "python" -> language <> "javascript" ->
  language <> "js" -> language <> "bash" ->
  let r := _fallback_execution w code language in
  let text := "Unsupported language: " +:+ language in
  method r = "fallback"
  /\ success r = negb (contains "Error:" language)
  /\ output r = (if contains "Error:" language then "" else text)
  /\ error r = (if contains "Error:" language then text else "").
Proof.
  intros H1 H2 H3 H4.
  apply String.eqb_neq in H1, H2, H3, H4.
  unfold _fallback_execution, fallback_text. rewrite H1, H2, H3, H4.
  cbn [orb]. rewrite unsupported_text_contains_error.
  destruct (contains "Error:" language); repeat split; reflexivity.
Qed.

Lemma unsupported_language_fallback_witness :
  let r := _fallback_execution (Demo.world_exit 0 "" "") "puts 1" "ruby" in
  method r = "fallback" /\ success r = true
  /\ output r = "Unsupported language: ruby".
Proof.
  destruct (unsupported_language_fallback (Demo.world_exit 0 "" "") "puts 1" "ruby")
    as (Hm & Hs & Ho & _); try discriminate.
  split; [exact Hm|]. split; [exact Hs | exact Ho].
Defined.

(** C10, as stated, fails: the language [Error:] is outside the four, and
    the result reports failure with an empty output. *)
Lemma unsupported_language_named_error :
  let language := "Error:" in
  let r := _fallback_execution (Demo.world_exit 0 "" "") "1" language in
  language <> "python" /\ language <> "javascript"
  /\ language <> "js" /\ language <> "bash"
  /\ success r = false /\ output r = ""
  /\ error r = "Unsupported language: Error:"
  /\ ~ (output r = "Unsupported language: " +:+ language /\ success r = true).
Proof.
  vm_compute. repeat split; try discriminate.
  intros [H _]. discriminate H.
Qed.

End EngineProperties.

(** * Properties of the security analyzer *)

Section AnalyzerProperties.
Import PyStr Analyzer.

Lemma scan_fold code (patterns : list (string * string)) (issues : list string) :
  fold_left (scan code) patterns issues
  = issues ++ map finding (List.filter (fun entry => contains entry.1 code) patterns).
Proof.
  revert issues. induction patterns as [|[pattern description] patterns IH];
    intros issues; simpl.
  - by rewrite app_nil_r.
  - rewrite IH. destruct (contains pattern code); simpl.
    + by rewrite <- app_assoc.
    + reflexivity.
Qed.

(** C9.  The analysis of a code text does not depend on the state it runs
    in and leaves that state as it was: from any two states the findings are
    the same list, namely the findings of the catalogue entries whose token
    occurs in the text, in catalogue order; so two runs in a row return the
    same findings and the state they started from. *)
Theorem analyze_security_pure (self other : IntegratedSlashCommands) (code : string) :
  (_analyze_security self code).1 = (_analyze_security other code).1
  /\ (_analyze_security self code).2 = self
  /\ (_analyze_security self code).1
     = map finding (List.filter (fun entry => contains entry.1 code) dangerous_patterns)
  /\ (let '(first, after_first) := _analyze_security self code in
      let '(second, after_second) := _analyze_security after_first code in
      first = second /\ after_second = self).
Proof.
  unfold _analyze_security; simpl fst; simpl snd.
  repeat split. apply (scan_fold code dangerous_patterns []).
Qed.

Example analyze_security_os_system :
  (_analyze_security (mkSlash None [] (mkStats 0 0 0 0 0 0))
     "import os; os.system('ls')").1
  = ["File system access: `import os`"; "System command execution: `os.system`"].
Proof. vm_compute. reflexivity. Qed.

End AnalyzerProperties.

(** * Properties of the inspector *)

Section InspectorProperties.
Import Json Inspector.

Lemma log_message_max_messages self now direction content execution_time error :
  max_messages (log_message self now direction content execution_time error)
  = max_messages self.
Proof. unfold log_message. by destruct (is_recording self). Qed.

Lemma step_max_messages self c : max_messages (step self c) = max_messages self.
Proof. destruct c; simpl; [apply log_message_max_messages|done..]. Qed.

Lemma length_tail {A} (l : list A) : length (tail l) = Nat.pred (length l).
Proof. by destruct l. Qed.

Lemma step_bounded self c :
  0 <= max_messages self ->
  Z.of_nat (length (messages self)) <= max_messages self ->
  Z.of_nat (length (messages (step self c))) <= max_messages (step self c).
Proof.
  intros Hcap Hlen. rewrite step_max_messages.
  destruct c as [now direction content execution_time error| |]; simpl.
  - unfold log_message. destruct (is_recording self); [|done]. simpl.
    set (message := message_of now direction content execution_time error).
    destruct (Z.gtb_spec (Z.of_nat (length (messages self ++ [message])))
                         (max_messages self)) as [Hgt|Hle]; [|done].
    rewrite length_tail, length_app. simpl. lia.
  - lia.
  - done.
Qed.

Lemma run_bounded calls self :
  0 <= max_messages self ->
  Z.of_nat (length (messages self)) <= max_messages self ->
  max_messages (run calls self) = max_messages self
  /\ Z.of_nat (length (messages (run calls self))) <= max_messages self.
Proof.
  revert self. induction calls as [|c calls IH]; intros self Hcap Hlen; [done|].
  unfold run in *. simpl.
  pose proof (step_bounded self c Hcap Hlen) as Hstep.
  rewrite step_max_messages in Hstep.
  destruct (IH (step self c)) as [Hmax Hbound];
    rewrite ?step_max_messages; try done.
  rewrite Hmax, step_max_messages in *. done.
Qed.

(** A new inspector: whatever is logged, at most 1000 messages are held. *)
Lemma new_inspector_within_default_cap calls :
  max_messages init = 1000
  /\ Z.of_nat (length (messages (run calls init))) <= 1000.
Proof. split; [reflexivity|]. by apply (run_bounded calls init). Qed.

(** C6.  Starting from a buffer within its cap (the buffer of a new
    inspector is empty and its cap is 1000), after any sequence of
    [log_message] calls, interleaved at will with the dashboard's clear and
    toggle-recording, the buffer holds at most [max_messages] messages; and
    when a message is logged into a full buffer, the buffer afterwards is the
    old one without its oldest message, followed by the new message.  (The
    states are those between calls: inside [log_message] the list is one
    longer between the append and the pop.) *)
Theorem ring_buffer_bounded (self : MCPInspector) (calls : list call) :
  0 <= max_messages self ->
  Z.of_nat (length (messages self)) <= max_messages self ->
  let after := run calls self in
  Z.of_nat (length (messages after)) <= max_messages self
  /\ max_messages after = max_messages self
  /\ forall now direction content execution_time error oldest rest,
       is_recording after = true ->
       messages after = oldest :: rest ->
       Z.of_nat (length (messages after)) = max_messages self ->
       messages (log_message after now direction content execution_time error)
       = rest ++ [message_of now direction content execution_time error].
Proof.
  intros Hcap Hlen. destruct (run_bounded calls self Hcap Hlen) as [Hmax Hbound].
  split; [exact Hbound|]. split; [exact Hmax|].
  intros now direction content execution_time error oldest rest Hrec Hmsgs Hfull.
  unfold log_message. rewrite Hrec. simpl. rewrite Hmax.
  set (message := message_of now direction content execution_time error).
  destruct (Z.gtb_spec (Z.of_nat (length (messages (run calls self) ++ [message])))
                       (max_messages self)) as [Hgt|Hle].
  - rewrite Hmsgs. reflexivity.
  - rewrite length_app in Hle. simpl in Hle. lia.
Qed.

Lemma ring_buffer_bounded_witness :
  Z.of_nat (length (messages
     (run [Log 0 "inbound" [("method", JStr "tools/list")] None None; Clear; Toggle]
          init))) <= 1000.
Proof.
  apply (ring_buffer_bounded init
           [Log 0 "inbound" [("method", JStr "tools/list")] None None; Clear; Toggle]).
  - vm_compute. discriminate.
  - vm_compute. discriminate.
Defined.

(** Eviction seen on a buffer of two: the third message pushes the first
    one out. *)
Example ring_buffer_of_two :
  let small := mkInspector [] (mkMetrics 0 0 0 ∅) true 2 in
  map timestamp (messages (run [Log 1 "inbound" [] None None;
                                Log 2 "outbound" [] None None;
                                Log 3 "inbound" [] None None] small))
  = [2%Q; 3%Q].
Proof. vm_compute. reflexivity. Qed.

(** *** The running average *)

Lemma update_metrics_total m message :
  total_messages (_update_metrics m message) = total_messages m + 1.
Proof. reflexivity. Qed.

(** One update with a time that counts: the new average times the new
    count is the old average times the old count, plus the time. *)
Lemma update_metrics_timed m message (x : Q) :
  execution_time message = Some x -> ~ (x == 0)%Q -> 0 <= total_messages m ->
  (avg_response_time (_update_metrics m message)
     * inject_Z (total_messages m + 1)
   == avg_response_time m * inject_Z (total_messages m) + x)%Q.
Proof.
  intros Hx Hnz Htotal. unfold _update_metrics. simpl. rewrite Hx. simpl.
  destruct (Qeq_bool x 0) eqn:E; [apply Qeq_bool_iff in E; contradiction|]. simpl.
  replace (total_messages m + 1 - 1) with (total_messages m) by lia.
  assert (~ (inject_Z (total_messages m + 1) == 0)%Q) as Hne.
  { unfold Qeq. simpl. lia. }
  field. exact Hne.
Qed.

Lemma run_timed calls self :
  Forall timed calls -> is_recording self = true ->
  0 <= total_messages (performance_metrics self) ->
  let m := performance_metrics self in
  let m' := performance_metrics (run calls self) in
  total_messages m' = total_messages m + Z.of_nat (length calls)
  /\ (avg_response_time m' * inject_Z (total_messages m')
      == avg_response_time m * inject_Z (total_messages m)
         + total_time_of (recorded_times calls true))%Q
  /\ length (recorded_times calls true) = length calls.
Proof.
  revert self. induction calls as [|c calls IH]; intros self Hall Hrec Htotal.
  - simpl. split; [lia|]. split; [|done]. unfold total_time_of. simpl. ring.
  - inversion Hall as [|c' calls' Hc Hrest]; subst.
    destruct c as [now direction content [x|] error| |]; try done.
    simpl in Hc. unfold run in *. simpl fold_left.
    set (self1 := log_message self now direction content (Some x) error).
    assert (is_recording self1 = true) as Hrec1.
    { unfold self1, log_message. rewrite Hrec. done. }
    assert (performance_metrics self1
            = _update_metrics (performance_metrics self)
                (message_of now direction content (Some x) error)) as Hm1.
    { unfold self1, log_message. rewrite Hrec. done. }
    destruct (IH self1 Hrest Hrec1) as (Hcount & Havg & Hlen).
    { rewrite Hm1, update_metrics_total. lia. }
    rewrite Hm1, update_metrics_total in Hcount.
    split; [rewrite Hcount; simpl length; lia|].
    split; [|simpl; by rewrite Hlen].
    rewrite Havg, Hm1, update_metrics_total.
    rewrite (update_metrics_timed _ _ x); [|done..].
    unfold total_time_of. simpl. ring.
Qed.

(** What the running average does compute: from a new inspector, when every
    logged message carries a time that is not zero, the average is the mean
    of the times. *)
Lemma avg_response_time_all_timed calls :
  Forall timed calls ->
  (avg_response_time (performance_metrics (run calls init))
   == mean (recorded_times calls true))%Q.
Proof.
  intros Hall. destruct (run_timed calls init Hall) as (Hcount & Havg & Hlen);
    [done..|].
  simpl in Hcount, Havg. unfold mean.
  destruct calls as [|c calls]; [reflexivity|].
  destruct (recorded_times (c :: calls) true) as [|x times] eqn:E;
    [simpl in Hlen; lia|].
  rewrite Hlen. rewrite Hcount in Havg.
  fold (total_time_of (x :: times)).
  assert (~ (inject_Z (Z.of_nat (length (c :: calls))) == 0)%Q) as Hne.
  { unfold Qeq. simpl. lia. }
  rewrite Z.add_0_l in Havg.
  assert (total_time_of (x :: times)
          == avg_response_time (performance_metrics (run (c :: calls) init))
             * inject_Z (Z.of_nat (length (c :: calls))))%Q as Htotal.
  { rewrite Havg. ring. }
  rewrite Htotal. field. exact Hne.
Qed.

(** C2 fails on the inspector's own use.  [_wrap_handler] logs each request
    without a time and each response with one; after one handler call that
    took 8 ms the only recorded time is 8, its mean is 8, and
    [avg_response_time] is 4: the update divides by the number of all
    messages, timed or not.  (8, 2 and 4 are exact as floats too, so no
    rounding stands between the two values.) *)
Theorem avg_response_time_after_wrapped_call :
  let calls := wrapped_handler_calls "tools/list" "()" (Some "{'tools': []}")
                 0 (8 # 1000) 8 in
  let self := run calls init in
  recorded_times calls true = [8%Q]
  /\ (mean (recorded_times calls true) == 8)%Q
  /\ total_messages (performance_metrics self) = 2
  /\ (avg_response_time (performance_metrics self) == 4)%Q
  /\ ~ (avg_response_time (performance_metrics self)
        == mean (recorded_times calls true))%Q.
Proof.
  vm_compute. repeat split; discriminate.
Qed.

End InspectorProperties.

(** * Properties of the tool surface and of the front-end *)

Section ServerProperties.
Import PyStr Json Server.

Lemma refused_name_is_not_empty filename :
  contains ".." filename = true \/ startswith filename "/" = true ->
  truthy (JStr filename) = true.
Proof. destruct filename; simpl; [intros [H|H]; discriminate H | done]. Qed.

(** C3.  For a file name that contains [..] or begins with [/],
    [safe_create_file] returns the text [Error: Invalid filename (path
    traversal attempt detected)], which begins with [Error:], and the file
    system it returns is the one it was given; and so does the [create_file]
    tool as [handle_call_tool] serves it, whatever the content argument: the
    response carries that text and the file system is unchanged. *)
Theorem create_file_refuses_traversal env (fs : filesystem) (filename content : string) :
  contains ".." filename = true \/ startswith filename "/" = true ->
  safe_create_file env fs filename content = (invalid_filename, fs)
  /\ startswith invalid_filename "Error:" = true
  /\ forall request params arguments : dict,
       get_default request "params" (JObj []) = JObj params ->
       get params "name" = JStr "create_file" ->
       get_default params "arguments" (JObj []) = JObj arguments ->
       get_default arguments "filename" (JStr "") = JStr filename ->
       handle_call_tool env fs request
       = (result_response (request_id_of request) (text_content invalid_filename), fs).
Proof.
  intros Hbad.
  assert (contains ".." filename || startswith filename "/" = true) as Hguard.
  { apply orb_true_iff. exact Hbad. }
  split; [unfold safe_create_file; by rewrite Hguard|].
  split; [reflexivity|].
  intros request params arguments Hparams Hname Hargs Hfile.
  unfold handle_call_tool, call_tool_body.
  rewrite Hparams, Hname, Hargs, Hfile.
  rewrite (refused_name_is_not_empty filename Hbad). simpl.
  unfold safe_create_file_dyn, safe_create_file. rewrite Hguard.
  by destruct (get_default arguments "content" (JStr "")).
Qed.

Lemma create_file_refuses_traversal_witness :
  handle_call_tool Demo.env ∅
    [("jsonrpc", JStr "2.0"); ("id", JInt 5); ("method", JStr "tools/call");
     ("params", JObj [("name", JStr "create_file");
                      ("arguments", JObj [("filename", JStr "../escape.txt");
                                          ("content", JStr "x")])])]
  = (result_response (JInt 5) (text_content invalid_filename), ∅).
Proof.
  eapply (create_file_refuses_traversal Demo.env ∅ "../escape.txt" "x").
  - left. reflexivity.
  - reflexivity.
  - reflexivity.
  - reflexivity.
  - reflexivity.
Defined.

(** The other side of the check: a plain name is written. *)
Example create_file_writes_plain_name :
  safe_create_file Demo.env ∅ "notes.txt" "x"
  = ("File 'notes.txt' created successfully with 1 characters",
     {[ "notes.txt" := "x" ]}).
Proof. vm_compute. reflexivity. Qed.

(** Two paths of one file: the write under one is read under the other. *)
Example create_file_other_path_same_file :
  (safe_create_file Demo.env {[ "keep.txt" := "old" ]} "./keep.txt" "new").2 !! "keep.txt"
  = Some "new".
Proof. vm_compute. reflexivity. Qed.

(** *** The loop of [main] *)

Lemma handle_call_tool_truthy env fs request :
  truthy (handle_call_tool env fs request).1 = true.
Proof.
  unfold handle_call_tool.
  by destruct (call_tool_body env fs request) as [[result|msg] fs'].
Qed.

Lemma dispatch_response env fs request :
  match (dispatch env fs request).1 with
  | Some response =>
      truthy response = true
      /\ is_str (get request "method") "notifications/initialized" = false
  | None => is_str (get request "method") "notifications/initialized" = true
  end.
Proof.
  unfold dispatch.
  destruct (get request "method") as [| | | |method| |]; simpl; try done.
  destruct (String.eqb_spec method "initialize") as [->|_]; [done|].
  destruct (String.eqb_spec method "tools/list") as [->|_]; [done|].
  destruct (String.eqb_spec method "tools/call") as [->|_].
  { pose proof (handle_call_tool_truthy env fs request) as Htruthy.
    by destruct (handle_call_tool env fs request). }
  by destruct (String.eqb method "notifications/initialized").
Qed.

(** C4, as amended.  A line that is not empty once its surrounding white
    space is stripped makes the loop print exactly one response, unless it
    parses to a request whose method is [notifications/initialized], for
    which it prints none; a line that strips to nothing prints none. *)
Theorem one_response_per_line env (fs : filesystem) (line : string) :
  (strip line <> "" ->
   length (process_line env fs line).1
   = if is_initialized_notification env line then 0%nat else 1%nat)
  /\ (strip line = "" -> (process_line env fs line).1 = []).
Proof.
  unfold process_line, is_initialized_notification. split.
  - intros Hline. destruct (strip line) as [|c stripped] eqn:E; [done|]. simpl.
    destruct (loads env (String c stripped)) as [request|msg|msg]; [|done|done].
    destruct request as [| | | | | |request]; try done.
    pose proof (dispatch_response env fs request) as Hd.
    destruct (dispatch env fs request) as [[response|] fs']; simpl in Hd.
    + destruct Hd as [-> ->]. done.
    + by rewrite Hd.
  - intros ->. done.
Qed.

Lemma one_response_per_line_witness :
  length (process_line Demo.env ∅ "{}").1 = 1%nat.
Proof.
  apply (one_response_per_line Demo.env ∅ "{}").
  vm_compute. discriminate.
Defined.

(** C4, as stated, fails: a line of three spaces is not empty and is no
    notification, and the loop prints nothing for it. *)
Lemma blank_line_gets_no_response :
  let line := "   " +:+ LF in
  line <> "" /\ is_initialized_notification Demo.env line = false
  /\ (process_line Demo.env ∅ line).1 = []
  /\ length (process_line Demo.env ∅ line).1 <> 1%nat.
Proof. vm_compute. repeat split; discriminate. Qed.

Lemma handle_call_tool_code env fs request :
  member (member (handle_call_tool env fs request).1 "error") "code" <> JInt (-32700).
Proof.
  unfold handle_call_tool.
  by destruct (call_tool_body env fs request) as [[result|msg] fs'].
Qed.

Lemma dispatch_code env fs request response :
  (dispatch env fs request).1 = Some response ->
  member (member response "error") "code" <> JInt (-32700).
Proof.
  unfold dispatch.
  destruct (is_str (get request "method") "initialize"); [by intros [= <-]|].
  destruct (is_str (get request "method") "tools/list"); [by intros [= <-]|].
  destruct (is_str (get request "method") "tools/call").
  { pose proof (handle_call_tool_code env fs request) as Hcode.
    destruct (handle_call_tool env fs request) as [response' fs'].
    by intros [= <-]. }
  destruct (is_str (get request "method") "notifications/initialized"); [done|].
  by intros [= <-].
Qed.

(** C5, as amended.  For a line that is not empty once stripped: when
    [json.loads] raises [JSONDecodeError], the loop prints one response,
    whose [id] is null and whose [error.code] is -32700, and goes on to the
    lines that follow: what [main] prints for the rest of the input comes
    after it; when [json.loads] raises another exception, the one response
    is the internal error -32603 with the [id] null; and when [json.loads]
    returns a value, nothing the loop prints has the code -32700. *)
Theorem malformed_line_gets_parse_error env (fs : filesystem)
    (line : string) (rest : list string) :
  strip line <> "" ->
  (forall msg, loads env (strip line) = JSONDecodeError msg ->
     let response := error_response JNull (-32700) ("Parse error: " +:+ msg) in
     process_line env fs line = ([response], fs)
     /\ member response "id" = JNull
     /\ member (member response "error") "code" = JInt (-32700)
     /\ main env fs (line :: rest)
        = (response :: (main env fs rest).1, (main env fs rest).2))
  /\ (forall msg, loads env (strip line) = OtherException msg ->
        process_line env fs line
        = ([error_response JNull (-32603) ("Internal error: " +:+ msg)], fs))
  /\ (forall value, loads env (strip line) = Loaded value ->
        forall response, In response (process_line env fs line).1 ->
          member (member response "error") "code" <> JInt (-32700)).
Proof.
  intros Hline. split; [|split].
  - intros msg Hloads.
    assert (process_line env fs line
            = ([error_response JNull (-32700) ("Parse error: " +:+ msg)], fs)) as Hstep.
    { unfold process_line. destruct (strip line) as [|c stripped]; [done|].
      simpl. by rewrite Hloads. }
    split; [exact Hstep|]. split; [reflexivity|]. split; [reflexivity|].
    simpl. rewrite Hstep. by destruct (main env fs rest).
  - intros msg Hloads. unfold process_line.
    destruct (strip line) as [|c stripped]; [done|]. simpl. by rewrite Hloads.
  - intros value Hloads response. unfold process_line.
    destruct (strip line) as [|c stripped]; [done|]. simpl. rewrite Hloads.
    destruct value as [| | | | | |request];
      try (simpl; intros [<-|[]]; discriminate).
    pose proof (dispatch_code env fs request) as Hcode.
    destruct (dispatch env fs request) as [[response'|] fs']; [|intros []].
    destruct (truthy response'); [|intros []].
    simpl. intros [<-|[]]. by apply Hcode.
Qed.

Lemma malformed_line_gets_parse_error_witness :
  (main Demo.env ∅ ["{not json" +:+ LF; "{}" +:+ LF]).1
  = [ error_response JNull (-32700)
        ("Parse error: Expecting property name enclosed in double quotes: line 1 column 2 (char 1)");
      error_response (JInt 1) (-32601) "Method not found: None" ].
Proof.
  destruct (malformed_line_gets_parse_error Demo.env ∅ ("{not json" +:+ LF)
              ["{}" +:+ LF]) as (Hparse & _ & _).
  - vm_compute. discriminate.
  - destruct (Hparse
      "Expecting property name enclosed in double quotes: line 1 column 2 (char 1)")
      as (_ & _ & _ & Hmain).
    + vm_compute. reflexivity.
    + rewrite Hmain. vm_compute. reflexivity.
Defined.

(** C5, as stated, fails twice.  The empty line is not valid JSON, and the
    loop prints nothing for it.  A line of two thousand opening brackets is
    not valid JSON either; [json.loads] raises [RecursionError] on it, and
    the loop answers with the code -32603, not -32700. *)
Lemma empty_line_gets_no_parse_error :
  let nested := Demo.brackets 2000 +:+ LF in
  loads Demo.env (strip LF)
  = JSONDecodeError "Expecting value: line 1 column 1 (char 0)"
  /\ process_line Demo.env ∅ LF = ([], ∅)
  /\ loads Demo.env (strip nested)
     = OtherException
         "maximum recursion depth exceeded while decoding a JSON array from a unicode string"
  /\ process_line Demo.env ∅ nested
     = ([error_response JNull (-32603)
           "Internal error: maximum recursion depth exceeded while decoding a JSON array from a unicode string"],
        ∅).
Proof. vm_compute. repeat split; reflexivity. Qed.

End ServerProperties.

(** * Further properties: session cleanup *)

Section SessionProperties.
Import PyStr Engine Sessions.

Lemma executor_eq e : with_containers e (containers e) = e.
Proof. by destruct e. Qed.

(** X1.  A cleanup without a session id, or with the empty one, empties the
    registry and kills every registered session once, and nothing else; the
    rest of the executor is as it was. *)
Theorem cleanup_everything (self : Executor) :
  let '(killed, after) := cleanup_session self None in
  cleanup_session self (Some "") = (killed, after)
  /\ containers after = ∅
  /\ NoDup killed
  /\ (forall id, id ∈ killed <-> is_Some (containers self !! id))
  /\ podman_available after = podman_available self
  /\ config after = config self
  /\ base_images after = base_images self.
Proof.
  unfold cleanup_session, session_ids. simpl.
  repeat split; try done.
  - apply NoDup_fst_map_to_list.
  - intros Hin. apply list_elem_of_fmap in Hin as [[id' s] [-> Hin]].
    apply elem_of_map_to_list in Hin. simpl. eauto.
  - intros [s Hs]. apply list_elem_of_fmap. exists (id, s). split; [done|].
    by apply elem_of_map_to_list.
Qed.

(** X2.  A cleanup of one named session removes that session and no other:
    it is killed exactly when it was registered, every other session stays
    as it was, and a name that is not registered changes nothing. *)
Theorem cleanup_one_session (self : Executor) (id : string) :
  id <> "" ->
  let '(killed, after) := cleanup_session self (Some id) in
  killed = match containers self !! id with Some _ => [id] | None => [] end
  /\ containers after = delete id (containers self)
  /\ containers after !! id = None
  /\ (forall other, other <> id ->
        containers after !! other = containers self !! other)
  /\ (containers self !! id = None -> after = self).
Proof.
  intros Hid. unfold cleanup_session.
  destruct id as [|c id]; [done|]. simpl.
  destruct (containers self !! String c id) as [s|] eqn:E; simpl.
  - repeat split; try done.
    + apply lookup_delete_eq.
    + intros other Hother. by apply lookup_delete_ne.
  - repeat split; try done.
    symmetry. by apply delete_id.
Qed.

Lemma cleanup_one_session_witness :
  (cleanup_session Samples.two_sessions (Some "claude-session-python")).1
  = ["claude-session-python"].
Proof.
  generalize (cleanup_one_session Samples.two_sessions "claude-session-python").
  destruct (cleanup_session Samples.two_sessions (Some "claude-session-python"))
    as [killed after].
  intros H. destruct H as [Hk _]; [discriminate|].
  rewrite Hk. vm_compute. reflexivity.
Defined.

(** X3.  Cleanup is idempotent: repeated with the same argument, with or
    without a session id, it kills nothing more and leaves the executor as
    the first cleanup left it. *)
Theorem cleanup_idempotent (self : Executor) (session_id : option string) :
  let '(_, after) := cleanup_session self session_id in
  cleanup_session after session_id = ([], after).
Proof.
  assert (cleanup_session (with_containers self ∅) None
          = ([], with_containers self ∅)) as Hall.
  { unfold cleanup_session, session_ids. simpl. by rewrite map_to_list_empty. }
  destruct session_id as [[|c id]|]; [exact Hall| |exact Hall].
  unfold cleanup_session. simpl.
  destruct (containers self !! String c id) as [s|] eqn:E; simpl.
  - rewrite lookup_delete_eq. done.
  - rewrite E. done.
Qed.

End SessionProperties.

(** * Further properties: the execution engine *)

Section EngineExtraProperties.
Import PyStr Engine Shape.

Lemma create_session_keeps self w session_id language self' :
  _create_session_container self w session_id language = Ok self' ->
  config self' = config self /\ base_images self' = base_images self
  /\ podman_available self' = podman_available self
  /\ is_Some (containers self' !! session_id)
  /\ (forall id, id <> session_id -> containers self' !! id = containers self !! id).
Proof.
  unfold _create_session_container.
  destruct (base_images self !! language) as [image|]; [|done]. simpl.
  destruct (run_stdin w _ "") as [[rc out err]|]; [|done].
  destruct (negb (rc =? 0)); [done|].
  intros [= <-]. simpl. repeat split; try done.
  - rewrite lookup_insert_eq. eauto.
  - intros id Hid. by apply lookup_insert_ne.
Qed.

Lemma persistent_state self w code language :
  let session_id := "claude-session-" +:+ language in
  let self' := (_execute_persistent self w code language).2 in
  config self' = config self /\ base_images self' = base_images self
  /\ podman_available self' = podman_available self
  /\ (forall id s, containers self !! id = Some s -> containers self' !! id = Some s)
  /\ (forall id, id <> session_id -> containers self' !! id = containers self !! id)
  /\ (is_Some (containers self !! session_id) -> self' = self).
Proof.
  unfold _execute_persistent.
  destruct (containers self !! ("claude-session-" +:+ language)) as [s|] eqn:E.
  - destruct (persistent_body self w _ code language); simpl; repeat split; done.
  - destruct (_create_session_container self w _ language) as [self1|msg] eqn:Hc.
    + destruct (create_session_keeps _ _ _ _ _ Hc) as (H1 & H2 & H3 & _ & H5).
      assert (forall id s, containers self !! id = Some s ->
                containers self1 !! id = Some s) as Hkeep.
      { intros id s Hs. rewrite H5; [done|]. intros ->. congruence. }
      destruct (persistent_body self1 w _ code language); simpl;
        repeat split; try done; try by intros [? ?].
    + simpl. repeat split; try done; try by intros [? ?].
Qed.

(** X4.  [execute_code] never drops or replaces a registered session: the
    configuration, the images and the availability flag of the executor are
    unchanged, every session registered before is registered after with the
    same record, only the session of the language of the call can be new, and
    a call whose tier is not [persistent], or whose language already has a
    session, leaves the executor exactly as it was. *)
Theorem execute_code_keeps_sessions self w code language tier :
  let after := (execute_code self w code language tier).2 in
  config after = config self /\ base_images after = base_images self
  /\ podman_available after = podman_available self
  /\ (forall id s, containers self !! id = Some s -> containers after !! id = Some s)
  /\ (forall id, id <> "claude-session-" +:+ language ->
        containers after !! id = containers self !! id)
  /\ (tier <> "persistent" -> after = self)
  /\ (is_Some (containers self !! ("claude-session-" +:+ language)) -> after = self).
Proof.
  unfold execute_code.
  destruct (negb (podman_available self)); [simpl; repeat split; done|].
  destruct (String.eqb tier "isolation"); [simpl; repeat split; done|].
  destruct (String.eqb_spec tier "persistent") as [->|Hne].
  - pose proof (persistent_state self w code language) as H. simpl in H.
    destruct (_execute_persistent self w code language) as [[r|msg] self'];
      simpl in *; destruct H as (H1 & H2 & H3 & H4 & H5 & H6);
      repeat split; try done.
  - destruct (String.eqb tier "development"); simpl; repeat split; done.
Qed.

Ltac shape := repeat split; simpl; intros; try congruence; try (by eauto);
  try (by match goal with H : is_Some None |- _ => destruct H as [? ?] end);
  tauto.

Lemma isolated_shaped self w code language :
  shaped (_execute_isolated self w code language)
  /\ security_level (_execute_isolated self w code language) = "isolation".
Proof.
  unfold _execute_isolated, shaped.
  destruct (temp_code_file w _ code); [|shape].
  destruct (base_images self !! language); [|shape].
  destruct (run_deadline w _ _) as [[rc out err]| | |]; shape.
Qed.

Lemma development_shaped self w code language :
  shaped (_execute_development self w code language)
  /\ security_level (_execute_development self w code language) = "development".
Proof.
  unfold _execute_development, shaped.
  destruct (temp_code_file w _ code); [|shape].
  destruct (base_images self !! language); [|shape].
  destruct (run_deadline w _ _) as [[rc out err]| | |]; shape.
Qed.

Lemma persistent_body_shaped self w session_id code language r :
  persistent_body self w session_id code language = Ok r ->
  shaped r /\ security_level r = "persistent".
Proof.
  unfold persistent_body, shaped.
  destruct (run_stdin w _ code) as [[rc out err]|]; [|done].
  destruct (negb (rc =? 0)); [done|].
  destruct (run_deadline w _ _) as [[rc' out' err']| | |]; try done;
    intros [= <-]; shape.
Qed.

Lemma shaped_with_execution_time r t :
  shaped r -> shaped (with_execution_time r t).
Proof. by destruct r. Qed.

(** X5.  Every result of [execute_code] is tagged [podman],
    [podman_timeout], [podman_error] or [fallback] (never
    [fallback_error]), and [fallback] exactly when the runtime is
    unavailable; it names a container exactly when it is tagged [podman];
    any other tag on the container side comes with no success, no output and
    a memory usage of 0; its security level is one of the three tiers,
    [subprocess] or the default [container]; and its execution time is the
    time measured by [execute_code], also after a timeout. *)
Theorem execute_code_result_shape self w code language tier :
  let r := (execute_code self w code language tier).1 in
  In (method r) ["podman"; "podman_timeout"; "podman_error"; "fallback"]
  /\ (method r = "fallback" <-> podman_available self = false)
  /\ (is_Some (container_id r) <-> method r = "podman")
  /\ (method r <> "podman" -> memory_usage r = 0)
  /\ (method r = "podman_timeout" \/ method r = "podman_error" ->
      success r = false /\ output r = "")
  /\ In (security_level r)
        ["isolation"; "persistent"; "development"; "subprocess"; "container"]
  /\ execution_time r = elapsed w.
Proof.
  assert (forall r level, shaped r -> security_level r = level ->
            In level ["isolation"; "persistent"; "development"; "subprocess"; "container"] ->
            let r' := with_execution_time r (elapsed w) in
            In (method r') ["podman"; "podman_timeout"; "podman_error"; "fallback"]
            /\ (method r' = "fallback" <-> true = false)
            /\ (is_Some (container_id r') <-> method r' = "podman")
            /\ (method r' <> "podman" -> memory_usage r' = 0)
            /\ (method r' = "podman_timeout" \/ method r' = "podman_error" ->
                success r' = false /\ output r' = "")
            /\ In (security_level r')
                  ["isolation"; "persistent"; "development"; "subprocess"; "container"]
            /\ execution_time r' = elapsed w) as Hlift.
  { intros [s o e t m c l tag] level (Hm & Hc & Hmem & Hfail) Hl Hin.
    simpl in *. subst l. repeat split; try done.
    - simpl in Hm. destruct Hm as [<-|[<-|[<-|[]]]]; simpl; tauto.
    - intros ->. simpl in Hm. destruct Hm as [?|[?|[?|[]]]]; discriminate.
    - apply Hc.
    - apply Hc.
    - destruct H as [->| ->]; apply Hfail; discriminate.
    - destruct H as [->| ->]; apply Hfail; discriminate. }
  unfold execute_code.
  destruct (podman_available self) eqn:Hav; simpl.
  - destruct (String.eqb tier "isolation").
    { destruct (isolated_shaped self w code language) as [Hs Hl].
      apply (Hlift _ _ Hs Hl). simpl. tauto. }
    destruct (String.eqb tier "persistent").
    { unfold _execute_persistent.
      destruct (match containers self !! _ with Some _ => _ | None => _ end)
        as [self1|msg].
      - destruct (persistent_body self1 w _ code language) as [r|msg] eqn:Hb.
        + destruct (persistent_body_shaped _ _ _ _ _ _ Hb) as [Hs Hl].
          apply (Hlift _ _ Hs Hl). simpl. tauto.
        + destruct (isolated_shaped self1 w code language) as [Hs Hl].
          apply (Hlift _ _ Hs Hl). simpl. tauto.
      - simpl. repeat split; try tauto; try congruence;
          try (intros [? ?]; done); try (intros; discriminate). }
    destruct (String.eqb tier "development").
    { destruct (development_shaped self w code language) as [Hs Hl].
      apply (Hlift _ _ Hs Hl). simpl. tauto. }
    destruct (isolated_shaped self w code language) as [Hs Hl].
    apply (Hlift _ _ Hs Hl). simpl. tauto.
  - unfold _fallback_execution.
    destruct (fallback_text_ok w code language) as [text ->]. simpl.
    repeat split; try tauto; try congruence;
      try (intros [? ?]; done);
      try (by match goal with
              | H : _ = _ \/ _ = _ |- _ => destruct H; discriminate
              end).
Qed.

(** X6.  With the runtime available, a language that has no base image and
    no registered session fails in every tier before any container is
    started: the result is tagged [podman_error], reports no success and no
    output, names no container, and the executor is unchanged. *)
Theorem unknown_language_in_container self w code language tier :
  podman_available self = true ->
  base_images self !! language = None ->
  containers self !! ("claude-session-" +:+ language) = None ->
  let r := (execute_code self w code language tier).1 in
  method r = "podman_error" /\ success r = false /\ output r = ""
  /\ container_id r = None
  /\ (execute_code self w code language tier).2 = self.
Proof.
  intros Hav Himg Hsess. unfold execute_code. rewrite Hav. simpl.
  assert (forall r, r = _execute_isolated self w code language ->
            method r = "podman_error" /\ success r = false /\ output r = ""
            /\ container_id r = None) as Hiso.
  { intros r ->. unfold _execute_isolated. rewrite Himg.
    by destruct (temp_code_file w _ code). }
  assert (forall r, r = _execute_development self w code language ->
            method r = "podman_error" /\ success r = false /\ output r = ""
            /\ container_id r = None) as Hdev.
  { intros r ->. unfold _execute_development. rewrite Himg.
    by destruct (temp_code_file w _ code). }
  destruct (String.eqb tier "isolation").
  { simpl. destruct (Hiso _ eq_refl) as (? & ? & ? & ?). done. }
  destruct (String.eqb tier "persistent").
  { unfold _execute_persistent, _create_session_container.
    rewrite Hsess, Himg. done. }
  destruct (String.eqb tier "development").
  { simpl. destruct (Hdev _ eq_refl) as (? & ? & ? & ?). done. }
  simpl. destruct (Hiso _ eq_refl) as (? & ? & ? & ?). done.
Qed.

Lemma unknown_language_in_container_witness :
  method (execute_code (init true) (Demo.world_exit 0 "" "")
            "puts 1" "ruby" "development").1 = "podman_error".
Proof.
  apply (unknown_language_in_container (init true) (Demo.world_exit 0 "" "")
           "puts 1" "ruby" "development"); reflexivity.
Defined.

(** X7.  The silent downgrade of the [persistent] tier: when the session
    exists and writing the code into it fails (the [podman exec] cannot be
    started, or exits with a status that is not 0), the call returns what an
    [isolation] call returns, with security level [isolation], and the
    executor is unchanged. *)
Theorem persistent_write_failure_downgrades self w code language :
  podman_available self = true ->
  is_Some (containers self !! ("claude-session-" +:+ language)) ->
  match run_stdin w
          [ "podman"; "exec"; "claude-session-" +:+ language; "sh"; "-c";
            "cat > /tmp/code_" +:+ uuid_persistent w +:+ "."
            +:+ _get_file_extension language ] code with
  | Raise _ => True
  | Ok (Completed returncode _ _) => returncode <> 0
  end ->
  execute_code self w code language "persistent"
  = execute_code self w code language "isolation"
  /\ security_level (execute_code self w code language "persistent").1 = "isolation".
Proof.
  intros Hav [s Hs] Hwrite.
  assert (execute_code self w code language "persistent"
          = execute_code self w code language "isolation") as Heq.
  { unfold execute_code. rewrite Hav. simpl.
    unfold _execute_persistent. rewrite Hs. unfold persistent_body.
    destruct (run_stdin w _ code) as [[rc out err]|msg]; [|done].
    destruct (Z.eqb_spec rc 0) as [->|_]; [done|]. done. }
  split; [exact Heq|]. rewrite Heq.
  unfold execute_code. rewrite Hav. simpl.
  destruct (isolated_shaped self w code language) as [_ Hl].
  by destruct (_execute_isolated self w code language).
Qed.

Lemma persistent_write_failure_downgrades_witness :
  security_level
    (execute_code Samples.two_sessions (Demo.world_exit 1 "" "read-only file system")
       "print(1)" "python" "persistent").1 = "isolation".
Proof.
  apply (persistent_write_failure_downgrades Samples.two_sessions
           (Demo.world_exit 1 "" "read-only file system") "print(1)" "python").
  - reflexivity.
  - vm_compute. eauto.
  - vm_compute. discriminate.
Defined.

(** X8.  A result at security level [persistent] can only come from a
    [persistent] call with the runtime available, and the session of its
    language is registered when the call returns. *)
Theorem persistent_result_has_session self w code language tier :
  security_level (execute_code self w code language tier).1 = "persistent" ->
  tier = "persistent" /\ podman_available self = true
  /\ is_Some (containers (execute_code self w code language tier).2
                !! ("claude-session-" +:+ language)).
Proof.
  unfold execute_code.
  destruct (podman_available self); simpl.
  2:{ unfold _fallback_execution.
      destruct (fallback_text_ok w code language) as [text ->]. done. }
  assert (forall self1,
            security_level (_execute_isolated self1 w code language)
            <> "persistent") as Hiso.
  { intros self1. destruct (isolated_shaped self1 w code language) as [_ ->].
    discriminate. }
  destruct (String.eqb tier "isolation"); [intros H; by apply Hiso in H|].
  destruct (String.eqb_spec tier "persistent") as [->|_].
  - unfold _execute_persistent.
    destruct (containers self !! ("claude-session-" +:+ language)) as [s|] eqn:E.
    + destruct (persistent_body self w _ code language); simpl.
      * intros _. repeat split; try done; rewrite E; eauto.
      * intros H. by apply Hiso in H.
    + destruct (_create_session_container self w _ language) as [self1|msg] eqn:Hc;
        [|done].
      destruct (create_session_keeps _ _ _ _ _ Hc) as (_ & _ & _ & Hsome & _).
      destruct (persistent_body self1 w _ code language); simpl.
      * intros _. repeat split; done.
      * intros H. by apply Hiso in H.
  - destruct (String.eqb tier "development"); simpl.
    + destruct (development_shaped self w code language) as [_ ->]. discriminate.
    + intros H. by apply Hiso in H.
Qed.

Lemma persistent_result_has_session_witness :
  is_Some (containers (execute_code (init true) (Demo.world_exit 0 "4" "")
                         "print(2+2)" "python" "persistent").2
             !! "claude-session-python").
Proof.
  apply (persistent_result_has_session (init true) (Demo.world_exit 0 "4" "")
           "print(2+2)" "python" "persistent").
  vm_compute. reflexivity.
Defined.

(** X9.  The fallback does not look at the exit status: with the runtime
    unavailable, a shell command that ends without any output is reported as
    a success with the text [Command executed successfully (no output)],
    whatever its exit status. *)
Theorem silent_command_is_success self w code tier (returncode : Z) :
  podman_available self = false ->
  run_shell w code 30 = Finished (Completed returncode "" "") ->
  let r := (execute_code self w code "bash" tier).1 in
  success r = true
  /\ output r = "Command executed successfully (no output)"
  /\ error r = "".
Proof.
  intros Hav Hrun. unfold execute_code. rewrite Hav. simpl.
  unfold _fallback_execution, fallback_text. simpl.
  unfold _sync_execute_bash. rewrite Hrun. done.
Qed.

Lemma silent_command_is_success_witness :
  success (execute_code (init false) (Demo.world_exit 3 "" "")
             "exit 3" "bash" "isolation").1 = true.
Proof.
  apply (silent_command_is_success (init false) (Demo.world_exit 3 "" "")
           "exit 3" "isolation" 3); reflexivity.
Defined.

Lemma python_failure_text_contains_error msg :
  contains "Error:" ("Error executing Python code: " +:+ msg)
  = contains "Error:" msg.
Proof. reflexivity. Qed.

(** X10.  A Python run that cannot be carried out is reported as a
    success: with the runtime unavailable, when writing the temporary file or
    starting the interpreter raises an exception whose text does not contain
    [Error:], the result has [success = true] and carries [Error executing
    Python code: <text>] as its output, with an empty error. *)
Theorem python_launch_failure_is_success self w code tier msg :
  podman_available self = false ->
  contains "Error:" msg = false ->
  (named_temp_file w code = Raise msg
   \/ exists temp_file,
        named_temp_file w code = Ok temp_file
        /\ (run_deadline w [sys_executable w; temp_file] 30 = Failed msg
            \/ run_deadline w [sys_executable w; temp_file] 30 = NotFound msg)) ->
  let r := (execute_code self w code "python" tier).1 in
  success r = true
  /\ output r = "Error executing Python code: " +:+ msg
  /\ error r = "".
Proof.
  intros Hav Hmsg Hfail. unfold execute_code. rewrite Hav. simpl.
  unfold _fallback_execution, fallback_text. simpl.
  assert (_sync_execute_python w code = "Error executing Python code: " +:+ msg)
    as ->.
  { unfold _sync_execute_python.
    destruct Hfail as [->|(temp_file & -> & [->| ->])]; done. }
  rewrite python_failure_text_contains_error, Hmsg. done.
Qed.

Lemma python_launch_failure_is_success_witness :
  let w := mkWorld "" "" "" (fun _ _ => Raise "") (fun _ => Raise "No space left on device")
             (fun _ _ => TimedOut) (fun _ _ => Raise "") (fun _ _ => TimedOut)
             (fun _ => 0) "python3" 0 0 (fun k => k) in
  success (execute_code (init false) w "print(1)" "python" "isolation").1 = true.
Proof.
  apply (python_launch_failure_is_success (init false) _ "print(1)" "isolation"
           "No space left on device").
  - reflexivity.
  - reflexivity.
  - left. reflexivity.
Defined.

(** Timeouts on the fallback path: with the runtime unavailable, when
    the child process of a supported language runs into the 30 second
    deadline, the result reports failure, has an empty output, is tagged
    [fallback], and its error is the timeout text of the language. *)
Theorem fallback_timeout_is_failure self w code language tier temp_file :
  podman_available self = false ->
  named_temp_file w code = Ok temp_file ->
  run_deadline w [sys_executable w; temp_file] 30 = TimedOut ->
  run_deadline w ["node"; "-e"; code] 30 = TimedOut ->
  run_shell w code 30 = TimedOut ->
  In language ["python"; "javascript"; "js"; "bash"] ->
  let r := (execute_code self w code language tier).1 in
  success r = false /\ output r = "" /\ method r = "fallback"
  /\ error r = (if String.eqb language "bash"
                then "Error: Command execution timed out (30 seconds)"
                else "Error: Code execution timed out (30 seconds)").
Proof.
  intros Hav Htemp Hpy Hjs Hsh Hin. unfold execute_code. rewrite Hav. simpl.
  unfold _fallback_execution, fallback_text.
  simpl in Hin. destruct Hin as [<-|[<-|[<-|[<-|[]]]]]; simpl.
  - unfold _sync_execute_python. rewrite Htemp, Hpy. done.
  - unfold _sync_execute_javascript. rewrite Hjs. done.
  - unfold _sync_execute_javascript. rewrite Hjs. done.
  - unfold _sync_execute_bash. rewrite Hsh. done.
Qed.

Lemma fallback_timeout_is_failure_witness :
  let w := mkWorld "" "" "" (fun _ _ => Raise "") (fun _ => Ok "/tmp/t.py")
             (fun _ _ => TimedOut) (fun _ _ => Raise "") (fun _ _ => TimedOut)
             (fun _ => 0) "python3" 0 30 (fun k => k) in
  success (execute_code (init false) w "while true; do :; done" "bash" "isolation").1
  = false.
Proof.
  apply (fallback_timeout_is_failure (init false) _ "while true; do :; done"
           "bash" "isolation" "/tmp/t.py"); try reflexivity.
  simpl. tauto.
Defined.

End EngineExtraProperties.

(** * Further properties: the tool surface *)

Section ToolProperties.
Import PyStr Json Server Requests.

Lemma tool_call_is_tool_call id tool arguments :
  is_tool_call (tool_call id tool arguments) tool arguments.
Proof. exists [("name", JStr tool); ("arguments", JObj arguments)]. done. Qed.

(** An [execute_code] call whose code is empty, holds only white
    space, or is missing is answered [Error: No code provided] whatever the
    language, [slash] included: nothing is run and no file is written. *)
Theorem execute_code_blank_code env (fs : filesystem) request arguments language code :
  is_tool_call request "execute_code" arguments ->
  text_argument arguments "language" language ->
  text_argument arguments "code" code ->
  strip code = "" ->
  handle_call_tool env fs request
  = (result_response (request_id_of request) (text_content "Error: No code provided"),
     fs).
Proof.
  intros (params & Hp & Hn & Ha) Hl Hc Hblank.
  unfold handle_call_tool, call_tool_body.
  rewrite Hp, Hn, Ha. simpl. rewrite Hl, Hc, Hblank. done.
Qed.

Lemma execute_code_blank_code_witness :
  handle_call_tool Demo.env ∅
    (tool_call (JInt 2) "execute_code" [("language", JStr "slash"); ("code", JStr "  ")])
  = (result_response (JInt 2) (text_content "Error: No code provided"), ∅).
Proof.
  apply (execute_code_blank_code Demo.env ∅
           (tool_call (JInt 2) "execute_code"
              [("language", JStr "slash"); ("code", JStr "  ")])
           [("language", JStr "slash"); ("code", JStr "  ")] "slash" "  ").
  - apply tool_call_is_tool_call.
  - reflexivity.
  - reflexivity.
  - reflexivity.
Defined.

(** X11.  The command router takes precedence over the language: an
    [execute_code] call whose code is not blank and begins with [/], or whose
    language is [slash] in any letter case, is answered by
    [process_command] on the code, also when the language names Python,
    JavaScript or Bash. *)
Theorem execute_code_slash_first env (fs : filesystem) request arguments language code :
  is_tool_call request "execute_code" arguments ->
  text_argument arguments "language" language ->
  text_argument arguments "code" code ->
  strip code <> "" ->
  lower language = "slash" \/ startswith code "/" = true ->
  (handle_call_tool env fs request).1
  = result_response (request_id_of request) (text_content (process_command env code)).
Proof.
  intros (params & Hp & Hn & Ha) Hl Hc Hblank Hslash.
  unfold handle_call_tool, call_tool_body.
  rewrite Hp, Hn, Ha. simpl. rewrite Hl, Hc.
  destruct (strip code) as [|c s]; [done|]. simpl.
  assert (String.eqb (lower language) "slash" || startswith code "/" = true) as ->.
  { apply orb_true_iff. destruct Hslash as [->|Hs]; [by left|by right]. }
  done.
Qed.

Lemma execute_code_slash_first_witness :
  (handle_call_tool Demo.env ∅
     (tool_call (JInt 2) "execute_code"
        [("language", JStr "python"); ("code", JStr "/help")])).1
  = result_response (JInt 2)
      (text_content "Unknown command. Use /help to see available commands.").
Proof.
  apply (execute_code_slash_first Demo.env ∅
           (tool_call (JInt 2) "execute_code"
              [("language", JStr "python"); ("code", JStr "/help")])
           [("language", JStr "python"); ("code", JStr "/help")] "python" "/help").
  - apply tool_call_is_tool_call.
  - reflexivity.
  - reflexivity.
  - vm_compute. discriminate.
  - right. reflexivity.
Defined.

(** The language of an [execute_code] call is matched without regard
    to letter case: two calls that differ only in the case of the letters of
    the language get the same response and leave the same file system. *)
Theorem execute_code_language_case env (fs : filesystem) id language language' code :
  lower language = lower language' ->
  handle_call_tool env fs
    (tool_call id "execute_code" [("language", JStr language); ("code", JStr code)])
  = handle_call_tool env fs
      (tool_call id "execute_code" [("language", JStr language'); ("code", JStr code)]).
Proof.
  intros Hlower. unfold handle_call_tool, call_tool_body. simpl.
  rewrite Hlower. reflexivity.
Qed.

Lemma execute_code_language_case_witness :
  handle_call_tool Demo.env ∅
    (tool_call (JInt 1) "execute_code" [("language", JStr "PYTHON"); ("code", JStr "print(4)")])
  = handle_call_tool Demo.env ∅
      (tool_call (JInt 1) "execute_code" [("language", JStr "python"); ("code", JStr "print(4)")]).
Proof.
  apply (execute_code_language_case Demo.env ∅ (JInt 1) "PYTHON" "python" "print(4)").
  reflexivity.
Defined.

(** X12.  Every language that [tools/list] offers for [execute_code] is
    served: for a code that is not blank the answer is the text of the
    router or of one of the three executors, never the [Unsupported
    language] text. *)
Theorem advertised_languages_are_served env (fs : filesystem) id language code :
  In (JStr language) advertised_languages ->
  strip code <> "" ->
  exists text,
    handle_call_tool env fs
      (tool_call id "execute_code" [("language", JStr language); ("code", JStr code)])
    = (result_response (request_id_of (tool_call id "execute_code"
          [("language", JStr language); ("code", JStr code)])) (text_content text), fs)
    /\ In text [ process_command env code; safe_execute_python_code env code;
                 safe_execute_javascript_code env code;
                 safe_execute_bash_code env code ].
Proof.
  intros Hin Hcode. unfold handle_call_tool, call_tool_body.
  cbn [get_default get tool_call String.eqb Ascii.eqb Bool.eqb is_str truthy
       PyStr.truthy negb orb andb].
  destruct (strip code) as [|c s]; [done|].
  cbn [PyStr.truthy negb].
  vm_compute in Hin.
  destruct Hin as [[= <-]|[[= <-]|[[= <-]|[[= <-]|[]]]]];
    cbn [lower lower_char String.eqb Ascii.eqb Bool.eqb orb];
    vm_compute lower; cbn [String.eqb Ascii.eqb Bool.eqb orb].
  - destruct (startswith code "/"); eexists; split; try reflexivity; simpl; tauto.
  - destruct (startswith code "/"); eexists; split; try reflexivity; simpl; tauto.
  - destruct (startswith code "/"); eexists; split; try reflexivity; simpl; tauto.
  - eexists; split; [reflexivity|]. simpl; tauto.
Qed.

Lemma advertised_languages_are_served_witness :
  exists text,
    handle_call_tool Demo.env ∅
      (tool_call (JInt 1) "execute_code" [("language", JStr "bash"); ("code", JStr "ls")])
    = (result_response (request_id_of (tool_call (JInt 1) "execute_code"
          [("language", JStr "bash"); ("code", JStr "ls")])) (text_content text), ∅)
    /\ In text [ process_command Demo.env "ls"; safe_execute_python_code Demo.env "ls";
                 safe_execute_javascript_code Demo.env "ls";
                 safe_execute_bash_code Demo.env "ls" ].
Proof.
  apply (advertised_languages_are_served Demo.env ∅ (JInt 1) "bash" "ls").
  - vm_compute. tauto.
  - vm_compute. discriminate.
Defined.

(** X13.  A [create_file] call with a name that passes the check and a
    file that can be opened: when the write succeeds, it answers [File
    '<name>' created successfully with <n> characters], [n] being the length
    of the content, and the file that the name designates holds the content;
    when the write raises, it answers [Error creating file: ...] and the file
    holds what the failed write left of it.  Either way every other file is
    as it was, and a file is another one when it is not the file that the
    name designates, not when its path is spelled differently. *)
Theorem create_file_writes env (fs : filesystem) request arguments filename content :
  is_tool_call request "create_file" arguments ->
  text_argument arguments "filename" filename ->
  text_argument arguments "content" content ->
  filename <> "" ->
  contains ".." filename = false ->
  startswith filename "/" = false ->
  open_for_writing env fs filename = None ->
  let reply := (handle_call_tool env fs request).1 in
  let after := (handle_call_tool env fs request).2 in
  match write env fs filename content with
  | None =>
      reply
      = result_response (request_id_of request)
          (text_content ("File '" +:+ filename +:+ "' created successfully with "
                         +:+ str_of_int (Z.of_nat (String.length content))
                         +:+ " characters"))
      /\ after !! file_of env filename = Some content
  | Some (msg, remains) =>
      reply
      = result_response (request_id_of request)
          (text_content ("Error creating file: " +:+ msg))
      /\ after !! file_of env filename = Some remains
  end
  /\ (forall other : file, other <> file_of env filename ->
        after !! other = fs !! other).
Proof.
  intros (params & Hp & Hn & Ha) Hf Hc Hne Hdots Hslash Hopen.
  unfold handle_call_tool, call_tool_body.
  rewrite Hp, Hn, Ha. simpl. rewrite Hf, Hc.
  destruct filename as [|c name]; [done|]. cbn [truthy PyStr.truthy negb].
  unfold safe_create_file_dyn, safe_create_file.
  rewrite Hdots, Hslash, Hopen. simpl.
  destruct (write env fs (String c name) content) as [[msg remains]|]; simpl.
  - split; [split; [done|apply lookup_insert_eq]|].
    intros other Hother. by apply lookup_insert_ne.
  - split; [split; [done|apply lookup_insert_eq]|].
    intros other Hother. by apply lookup_insert_ne.
Qed.

Lemma create_file_writes_witness :
  (handle_call_tool Demo.env {[ "notes.txt" := "old" ]}
     (tool_call (JInt 7) "create_file"
        [("filename", JStr "./notes.txt"); ("content", JStr "hello")])).2 !! "notes.txt"
  = Some "hello".
Proof.
  destruct (create_file_writes Demo.env {[ "notes.txt" := "old" ]}
              (tool_call (JInt 7) "create_file"
                 [("filename", JStr "./notes.txt"); ("content", JStr "hello")])
              [("filename", JStr "./notes.txt"); ("content", JStr "hello")]
              "./notes.txt" "hello") as [[_ Hfile] _].
  - apply tool_call_is_tool_call.
  - reflexivity.
  - reflexivity.
  - discriminate.
  - reflexivity.
  - reflexivity.
  - reflexivity.
  - exact Hfile.
Defined.

Lemma safe_create_file_dyn_frame env (fs : filesystem) filename content (other : file) :
  (forall name, filename = JStr name -> file_of env name <> other) ->
  (safe_create_file_dyn env fs filename content).2 !! other = fs !! other.
Proof.
  intros Hother. unfold safe_create_file_dyn, safe_create_file.
  destruct filename as [| | | |name|items|items]; simpl; try done.
  - assert (file_of env name <> other) as Hne by (by apply Hother).
    destruct content; destruct (contains ".." name || startswith name "/");
      try done; destruct (open_for_writing env fs name); simpl; try done;
      try (destruct (write env fs name _) as [[msg remains]|]; simpl);
      by apply lookup_insert_ne.
  - by destruct (existsb _ items).
  - by destruct (existsb _ items).
Qed.

(** X14.  A [create_file] call, whatever its arguments hold and however it
    ends, changes no file other than the one that its [filename] argument
    designates: a file that no string given as the file name designates is
    as it was. *)
Theorem create_file_touches_only_its_path env (fs : filesystem) request arguments
    (other : file) :
  is_tool_call request "create_file" arguments ->
  (forall filename, get_default arguments "filename" (JStr "") = JStr filename ->
     file_of env filename <> other) ->
  (handle_call_tool env fs request).2 !! other = fs !! other.
Proof.
  intros (params & Hp & Hn & Ha) Hother.
  unfold handle_call_tool, call_tool_body.
  rewrite Hp, Hn, Ha. simpl.
  destruct (truthy (get_default arguments "filename" (JStr ""))); simpl; [|done].
  pose proof (safe_create_file_dyn_frame env fs
                (get_default arguments "filename" (JStr ""))
                (get_default arguments "content" (JStr "")) other Hother) as Hframe.
  by destruct (safe_create_file_dyn env fs _ _).
Qed.

Lemma create_file_touches_only_its_path_witness :
  (handle_call_tool Demo.env {[ "keep.txt" := "kept" ]}
     (tool_call (JInt 7) "create_file"
        [("filename", JStr "./notes.txt"); ("content", JStr "hello")])).2 !! "keep.txt"
  = Some "kept".
Proof.
  rewrite (create_file_touches_only_its_path Demo.env {[ "keep.txt" := "kept" ]}
             (tool_call (JInt 7) "create_file"
                [("filename", JStr "./notes.txt"); ("content", JStr "hello")])
             [("filename", JStr "./notes.txt"); ("content", JStr "hello")] "keep.txt").
  - reflexivity.
  - apply tool_call_is_tool_call.
  - intros filename [= <-]. vm_compute. discriminate.
Defined.

(** X15.  A content that is not a string empties the file: when the name
    passes the check and the file can be opened, a [create_file] call whose
    content is a number, a list, an object, a boolean or null answers
    [Error creating file: ...] and leaves the file empty, whatever it held
    before. *)
Theorem create_file_bad_content_truncates env (fs : filesystem) request arguments
    filename content :
  is_tool_call request "create_file" arguments ->
  text_argument arguments "filename" filename ->
  get_default arguments "content" (JStr "") = content ->
  (forall text, content <> JStr text) ->
  filename <> "" ->
  contains ".." filename = false ->
  startswith filename "/" = false ->
  open_for_writing env fs filename = None ->
  handle_call_tool env fs request
  = (result_response (request_id_of request)
       (text_content ("Error creating file: " +:+ type_error env content)),
     <[ file_of env filename := "" ]> fs).
Proof.
  intros (params & Hp & Hn & Ha) Hf Hc Hbad Hne Hdots Hslash Hopen.
  unfold handle_call_tool, call_tool_body.
  rewrite Hp, Hn, Ha. simpl. rewrite Hf, Hc.
  destruct filename as [|c name]; [done|]. cbn [truthy PyStr.truthy negb].
  unfold safe_create_file_dyn.
  destruct content as [| | | |text| |]; try (by rewrite Hdots, Hslash, Hopen).
  by destruct (Hbad text).
Qed.

Lemma create_file_bad_content_truncates_witness :
  (handle_call_tool Demo.env {[ "notes.txt" := "precious" ]}
     (tool_call (JInt 7) "create_file"
        [("filename", JStr "notes.txt"); ("content", JInt 42)])).2
  = {[ "notes.txt" := "" ]}.
Proof.
  rewrite (create_file_bad_content_truncates Demo.env {[ "notes.txt" := "precious" ]}
             (tool_call (JInt 7) "create_file"
                [("filename", JStr "notes.txt"); ("content", JInt 42)])
             [("filename", JStr "notes.txt"); ("content", JInt 42)]
             "notes.txt" (JInt 42)).
  - vm_compute. reflexivity.
  - apply tool_call_is_tool_call.
  - reflexivity.
  - reflexivity.
  - discriminate.
  - discriminate.
  - reflexivity.
  - reflexivity.
  - reflexivity.
Defined.

(** A [create_file] call without a file name (the argument is
    missing, empty, null, zero, false or an empty list or object) answers
    [Error: Filename is required] and writes nothing. *)
Theorem create_file_needs_filename env (fs : filesystem) request arguments :
  is_tool_call request "create_file" arguments ->
  truthy (get_default arguments "filename" (JStr "")) = false ->
  handle_call_tool env fs request
  = (result_response (request_id_of request)
       (text_content "Error: Filename is required"), fs).
Proof.
  intros (params & Hp & Hn & Ha) Hfalse.
  unfold handle_call_tool, call_tool_body.
  rewrite Hp, Hn, Ha. simpl. rewrite Hfalse. done.
Qed.

Lemma create_file_needs_filename_witness :
  handle_call_tool Demo.env ∅
    (tool_call (JInt 7) "create_file" [("content", JStr "hello")])
  = (result_response (JInt 7) (text_content "Error: Filename is required"), ∅).
Proof.
  apply (create_file_needs_filename Demo.env ∅
           (tool_call (JInt 7) "create_file" [("content", JStr "hello")])
           [("content", JStr "hello")]).
  - apply tool_call_is_tool_call.
  - reflexivity.
Defined.

End ToolProperties.

(** * Further properties: the JSON-RPC front-end *)

Section ProtocolProperties.
Import PyStr Json Server Requests.

Lemma get_default_present (d : dict) key dflt :
  get d key <> JNull -> get_default d key dflt = get d key.
Proof.
  induction d as [|[k v] d IH]; simpl; [done|].
  destruct (String.eqb k key); [done|]. exact IH.
Qed.

Lemma get_default_absent (d : dict) key dflt :
  has_key d key = false -> get_default d key dflt = dflt /\ get d key = JNull.
Proof.
  induction d as [|[k v] d IH]; simpl; [done|].
  destruct (String.eqb k key); [done|]. exact IH.
Qed.

Lemma request_id_present request :
  get request "id" <> JNull -> request_id_of request = get request "id".
Proof. unfold request_id_of. by destruct (get request "id"). Qed.

Lemma handle_call_tool_id env fs request :
  member (handle_call_tool env fs request).1 "id" = request_id_of request
  \/ member (handle_call_tool env fs request).1 "id"
     = get_default request "id" (JInt 1).
Proof.
  unfold handle_call_tool.
  destruct (call_tool_body env fs request) as [[text|msg] fs']; simpl; tauto.
Qed.

(** X16.  Responses are paired with requests by [id]: whatever the method,
    the response to a request object carries the [id] of the request when
    that is not null, and [1] when the request has no [id] at all. *)
Theorem response_carries_request_id env (fs : filesystem) request response :
  (dispatch env fs request).1 = Some response ->
  (get request "id" <> JNull -> member response "id" = get request "id")
  /\ (has_key request "id" = false -> member response "id" = JInt 1).
Proof.
  intros Hd.
  assert (member response "id" = request_id_of request
          \/ member response "id" = get_default request "id" (JInt 1)) as Hid.
  { revert Hd. unfold dispatch.
    destruct (is_str (get request "method") "initialize"); [intros [= <-]; by left|].
    destruct (is_str (get request "method") "tools/list"); [intros [= <-]; by left|].
    destruct (is_str (get request "method") "tools/call").
    { pose proof (handle_call_tool_id env fs request) as H.
      destruct (handle_call_tool env fs request) as [r fs']. by intros [= <-]. }
    destruct (is_str (get request "method") "notifications/initialized"); [done|].
    intros [= <-]. by right. }
  split.
  - intros Hpresent.
    destruct Hid as [-> | ->];
      [by apply request_id_present | by apply get_default_present].
  - intros Habsent.
    destruct (get_default_absent request "id" (JInt 1) Habsent) as [Hdflt Hget].
    destruct Hid as [-> | ->]; [|done].
    unfold request_id_of. by rewrite Hget.
Qed.

Lemma response_carries_request_id_witness :
  member (handle_list_tools [("id", JStr "abc"); ("method", JStr "tools/list")]) "id"
  = JStr "abc".
Proof.
  apply (response_carries_request_id Demo.env ∅
           [("id", JStr "abc"); ("method", JStr "tools/list")]).
  - reflexivity.
  - discriminate.
Defined.

(** X17.  A request whose [id] is given as null is answered unevenly:
    results ([initialize], [tools/list], a tool call that returns a text)
    carry the id [1], while errors (an unknown method, a tool call that
    raises) carry the id null. *)
Theorem null_id_is_answered_unevenly env (fs : filesystem) request :
  has_key request "id" = true -> get request "id" = JNull ->
  member (handle_initialize request) "id" = JInt 1
  /\ member (handle_list_tools request) "id" = JInt 1
  /\ member (handle_call_tool env fs request).1 "id"
     = (if truthy (member (handle_call_tool env fs request).1 "error")
        then JNull else JInt 1)
  /\ (is_str (get request "method") "initialize" = false ->
      is_str (get request "method") "tools/list" = false ->
      is_str (get request "method") "tools/call" = false ->
      is_str (get request "method") "notifications/initialized" = false ->
      (dispatch env fs request).1
      = Some (error_response JNull (-32601)
                ("Method not found: " +:+ py_str env (get request "method")))).
Proof.
  intros Hkey Hnull.
  assert (get_default request "id" (JInt 1) = JNull) as Hdflt.
  { clear -Hkey Hnull. induction request as [|[k v] d IH]; simpl in *; [done|].
    destruct (String.eqb k "id"); [done|]. by apply IH. }
  assert (request_id_of request = JInt 1) as Hid.
  { unfold request_id_of. by rewrite Hnull. }
  split; [exact Hid|]. split; [exact Hid|]. split.
  - unfold handle_call_tool.
    destruct (call_tool_body env fs request) as [[text|msg] fs']; simpl; done.
  - intros H1 H2 H3 H4. unfold dispatch. rewrite H1, H2, H3, H4. simpl.
    by rewrite Hdflt.
Qed.

Lemma null_id_is_answered_unevenly_witness :
  member (handle_initialize [("id", JNull); ("method", JStr "initialize")]) "id"
  = JInt 1.
Proof.
  apply (null_id_is_answered_unevenly Demo.env ∅
           [("id", JNull); ("method", JStr "initialize")]); reflexivity.
Defined.

Lemma envelope_result id result : result <> JNull -> envelope (result_response id result).
Proof. intros H. split; [done|]. left. done. Qed.

Lemma envelope_error id code message :
  In code [-32700; -32601; -32603] -> envelope (error_response id code message).
Proof. intros H. split; [done|]. right. split; [done|]. eauto. Qed.

Lemma envelope_call_tool env fs request :
  envelope (handle_call_tool env fs request).1.
Proof.
  unfold handle_call_tool.
  destruct (call_tool_body env fs request) as [[text|msg] fs']; simpl.
  - by apply envelope_result.
  - apply envelope_error. simpl. tauto.
Qed.

Lemma envelope_process_line env fs line response :
  In response (process_line env fs line).1 -> envelope response.
Proof.
  unfold process_line.
  destruct (negb (PyStr.truthy (strip line))); [done|].
  destruct (loads env (strip line)) as [request|msg|msg].
  2:{ intros [<-|[]]. apply envelope_error. simpl. tauto. }
  2:{ intros [<-|[]]. apply envelope_error. simpl. tauto. }
  assert (forall v, In response
            [error_response JNull (-32603)
               ("Internal error: " +:+ attribute_error env v "get")] ->
          envelope response) as Hbad.
  { intros v [<-|[]]. apply envelope_error. simpl. tauto. }
  destruct request as [| | | | | |request]; try apply Hbad.
  unfold dispatch.
  destruct (is_str (get request "method") "initialize").
  { intros [<-|[]]. by apply envelope_result. }
  destruct (is_str (get request "method") "tools/list").
  { intros [<-|[]]. by apply envelope_result. }
  destruct (is_str (get request "method") "tools/call").
  { pose proof (envelope_call_tool env fs request) as Henv.
    pose proof (handle_call_tool_truthy env fs request) as Htruthy.
    destruct (handle_call_tool env fs request) as [r fs']. simpl in *.
    rewrite Htruthy. by intros [<-|[]]. }
  destruct (is_str (get request "method") "notifications/initialized"); [done|].
  intros [<-|[]]. apply envelope_error. simpl. tauto.
Qed.

(** X18.  Everything [main] prints is a JSON-RPC 2.0 envelope: its
    [jsonrpc] member is [2.0], and it has either a result and no error, or no
    result and an error made of a code among -32700, -32601 and -32603 and a
    message. *)
Theorem main_prints_envelopes env (fs : filesystem) (stdin : list string) response :
  In response (main env fs stdin).1 -> envelope response.
Proof.
  revert fs. induction stdin as [|line rest IH]; intros fs; simpl; [done|].
  pose proof (envelope_process_line env fs line response) as Hline.
  destruct (process_line env fs line) as [printed fs'].
  specialize (IH fs'). destruct (main env fs' rest) as [later fs''].
  simpl in *. intros Hin. apply in_app_or in Hin as [Hin|Hin]; auto.
Qed.

Lemma main_prints_envelopes_witness :
  envelope (error_response (JInt 1) (-32601) "Method not found: None").
Proof.
  apply (main_prints_envelopes Demo.env ∅ ["{}"]).
  vm_compute. tauto.
Defined.

(** [main] serves its input line by line: the output for an input
    read in two parts is the output for the first part followed by the output
    for the second, served from the file system the first part left. *)
Theorem main_app env (fs : filesystem) (first second : list string) :
  main env fs (first ++ second)
  = ((main env fs first).1 ++ (main env (main env fs first).2 second).1,
     (main env (main env fs first).2 second).2).
Proof.
  revert fs. induction first as [|line rest IH]; intros fs; simpl.
  - by destruct (main env fs second).
  - destruct (process_line env fs line) as [printed fs'].
    rewrite IH. destruct (main env fs' rest) as [later fs'']. simpl.
    by rewrite app_assoc.
Qed.

(** X19.  A line that is valid JSON but not an object (a number, a string,
    a list, a boolean, null) is answered with the internal error -32603 and
    the id null, and a request object without a known method, or with no
    method at all, with -32601; neither changes the file system. *)
Theorem odd_requests_get_errors env (fs : filesystem) (line : string) (request : json) :
  strip line <> "" ->
  loads env (strip line) = Loaded request ->
  match request with
  | JObj items =>
      is_str (get items "method") "initialize" = false ->
      is_str (get items "method") "tools/list" = false ->
      is_str (get items "method") "tools/call" = false ->
      is_str (get items "method") "notifications/initialized" = false ->
      process_line env fs line
      = ([error_response (get_default items "id" (JInt 1)) (-32601)
            ("Method not found: " +:+ py_str env (get items "method"))], fs)
  | _ =>
      process_line env fs line
      = ([error_response JNull (-32603)
            ("Internal error: " +:+ attribute_error env request "get")], fs)
  end.
Proof.
  intros Hline Hloads. unfold process_line.
  destruct (strip line) as [|c s]; [done|]. simpl. rewrite Hloads.
  destruct request as [| | | | | |items]; try done.
  intros H1 H2 H3 H4. unfold dispatch. rewrite H1, H2, H3, H4. done.
Qed.

Lemma odd_requests_get_errors_witness :
  process_line Demo.env ∅ "[]"
  = ([error_response JNull (-32603)
        ("Internal error: " +:+ attribute_error Demo.env (JArr []) "get")], ∅).
Proof.
  apply (odd_requests_get_errors Demo.env ∅ "[]" (JArr [])).
  - vm_compute. discriminate.
  - reflexivity.
Defined.

End ProtocolProperties.

(** * Further properties: the inspector and its dashboard *)

Section DashboardProperties.
Import Json Inspector Dashboard.

Lemma last_items_all {A} (n : nat) (l : list A) :
  (length l <= n)%nat -> last_items n l = l.
Proof. intros H. unfold last_items. by replace (length l - n)%nat with 0%nat by lia. Qed.

Lemma last_items_app {A} (n : nat) (l suffix : list A) :
  last_items n (last_items n l ++ suffix) = last_items n (l ++ suffix).
Proof.
  destruct (Nat.le_gt_cases (length l) n) as [Hle|Hgt].
  - by rewrite (last_items_all n l Hle).
  - unfold last_items. rewrite !length_app, length_drop.
    replace (length l - (length l - n) + length suffix - n)%nat
      with (length suffix) by lia.
    replace (length l + length suffix - n)%nat
      with ((length l - n) + length suffix)%nat by lia.
    rewrite <- drop_drop. f_equal.
    rewrite drop_app_le by lia. done.
Qed.

Lemma buffered_shape calls recording :
  (exists suffix, forall held, buffered calls recording held = held ++ suffix)
  \/ (exists result, forall held, buffered calls recording held = result).
Proof.
  revert recording.
  induction calls as [|[now direction content execution_time error| |] calls IH];
    intros recording; simpl.
  - left. exists []. intros held. by rewrite app_nil_r.
  - destruct recording; [|apply IH].
    destruct (IH true) as [[suffix H]|[result H]].
    + left. eexists. intros held. rewrite H, <- app_assoc. done.
    + right. exists result. intros held. apply H.
  - right. eexists. intros held. done.
  - apply IH.
Qed.

Lemma buffered_last_items n calls recording held :
  last_items n (buffered calls recording (last_items n held))
  = last_items n (buffered calls recording held).
Proof.
  destruct (buffered_shape calls recording) as [[suffix H]|[result H]].
  - rewrite !H. apply last_items_app.
  - by rewrite !H.
Qed.

(** X20.  The buffer is the tail of the log: from a buffer within a cap
    that is not negative, after any sequence of [log_message], clear and
    toggle-recording calls, the buffer holds, in the order they were logged,
    the last [max_messages] of the messages recorded since the last clear
    (together with what the buffer held at the start, when it was not
    cleared). *)
Theorem ring_buffer_is_log_tail (self : MCPInspector) (calls : list call) :
  0 <= max_messages self ->
  Z.of_nat (length (messages self)) <= max_messages self ->
  messages (run calls self)
  = last_items (Z.to_nat (max_messages self))
      (buffered calls (is_recording self) (messages self)).
Proof.
  revert self. induction calls as [|c calls IH]; intros self Hcap Hlen.
  - simpl. symmetry. apply last_items_all. lia.
  - unfold run in *. simpl fold_left.
    pose proof (step_bounded self c Hcap Hlen) as Hstep.
    pose proof (step_max_messages self c) as Hmax.
    rewrite IH; [|rewrite Hmax; exact Hcap|exact Hstep].
    rewrite Hmax. clear IH Hstep Hmax.
    destruct c as [now direction content execution_time error| |]; simpl.
    + unfold log_message. destruct (is_recording self) eqn:Hrec; simpl;
        [|by rewrite Hrec].
      set (message := message_of now direction content execution_time error).
      rewrite <- (buffered_last_items _ calls true (messages self ++ [message])).
      f_equal. f_equal.
      destruct (Z.gtb_spec (Z.of_nat (length (messages self ++ [message])))
                           (max_messages self)) as [Hgt|Hle].
      * rewrite length_app in Hgt. simpl in Hgt.
        unfold last_items. rewrite length_app. simpl.
        replace (length (messages self) + 1 - Z.to_nat (max_messages self))%nat
          with 1%nat by lia.
        by destruct (messages self ++ [message]).
      * symmetry. apply last_items_all. lia.
    + rewrite <- (buffered_last_items _ calls _ []). done.
    + done.
Qed.

Lemma ring_buffer_is_log_tail_witness :
  map timestamp
    (messages (run [Log 1 "inbound" [] None None; Log 2 "outbound" [] None None;
                    Log 3 "inbound" [] None None]
                   (mkInspector [] (mkMetrics 0 0 0 ∅) true 2)))
  = [2%Q; 3%Q].
Proof.
  rewrite (ring_buffer_is_log_tail (mkInspector [] (mkMetrics 0 0 0 ∅) true 2)).
  - vm_compute. reflexivity.
  - vm_compute. discriminate.
  - vm_compute. discriminate.
Defined.

Lemma log_message_recording self now direction content execution_time error :
  is_recording (log_message self now direction content execution_time error)
  = is_recording self.
Proof.
  unfold log_message. destruct (is_recording self) eqn:E; simpl; [done|exact E].
Qed.

(** X21.  The counters count what was recorded: after any sequence of
    calls, [total_messages] has grown by the number of messages logged
    while recording was on, and [error_count] by the number of those that
    carry an error text that is not empty; clearing the buffer and evicting
    from it do not change them, and messages logged while recording is off
    are not counted. *)
Theorem counters_count_recorded (self : MCPInspector) (calls : list call) :
  let recorded := recorded_messages calls (is_recording self) in
  let before := performance_metrics self in
  let after := performance_metrics (run calls self) in
  total_messages after = total_messages before + Z.of_nat (length recorded)
  /\ error_count after
     = error_count before + Z.of_nat (length (List.filter has_error recorded))
  /\ is_recording (run calls self) = recording_after calls (is_recording self).
Proof.
  revert self.
  induction calls as [|[now direction content et err| |] calls IH];
    intros self; unfold run, recording_after in *; simpl fold_left.
  - simpl. repeat split; lia.
  - destruct (IH (log_message self now direction content et err))
      as (Ht & He & Hr).
    rewrite Ht, He, Hr, log_message_recording. clear IH Ht He Hr.
    unfold log_message. destruct (is_recording self) eqn:Hrec; simpl; rewrite ?Hrec.
    + change (has_error (message_of now direction content et err))
        with (truthy_str err).
      destruct (truthy_str err); simpl length; repeat split; lia.
    + repeat split; lia.
  - destruct (IH (clear_messages self)) as (Ht & He & Hr). simpl in *. done.
  - destruct (IH (toggle_recording self)) as (Ht & He & Hr). simpl in *. done.
Qed.

(** The dashboard's message list is the newest hundred: [GET
    /api/messages] returns the messages of the buffer from the hundredth last
    on, in order, all of them when there are no more than a hundred, together
    with the metrics unchanged. *)
Theorem get_messages_newest_hundred (self : MCPInspector) :
  let shown := (get_messages self).1 in
  length shown = Nat.min 100 (length (messages self))
  /\ (exists older, messages self = older ++ shown)
  /\ ((length (messages self) <= 100)%nat -> shown = messages self)
  /\ (get_messages self).2 = performance_metrics self.
Proof.
  unfold get_messages, last_items. cbn [fst snd]. repeat split.
  - rewrite length_drop. lia.
  - exists (take (length (messages self) - 100) (messages self)).
    by rewrite take_drop.
  - intros H. by replace (length (messages self) - 100)%nat with 0%nat by lia.
Qed.

Lemma update_stats_of m message name :
  name <> "" ->
  count (stats_of (_update_metrics m message) name)
  = count (stats_of m name) + (if has_method name message then 1 else 0)
  /\ errors (stats_of (_update_metrics m message) name)
     = errors (stats_of m name)
       + (if has_method name message && has_error message then 1 else 0).
Proof.
  intros Hname. unfold _update_metrics, stats_of, has_method, has_error.
  cbn [method_stats].
  destruct (method message) as [name'|]; [|simpl; lia].
  destruct name' as [|c name'].
  { simpl. destruct name; [done|]. simpl. lia. }
  cbn [PyStr.truthy].
  destruct (String.eqb_spec (String c name') name) as [->|Hne].
  - destruct (truthy_float (execution_time message)); cbv beta iota zeta;
      rewrite lookup_insert_eq; cbn [default from_option id count errors andb];
      destruct (truthy_str (Inspector.error message)); lia.
  - destruct (truthy_float (execution_time message)); cbv beta iota zeta;
      rewrite lookup_insert_ne by done; cbn [andb]; lia.
Qed.

(** X22.  The statistics of a method count its recorded messages: after
    any sequence of calls, the [count] of a method (with a name that is not
    empty) has grown by the number of recorded messages of that method,
    requests and responses alike, and its [errors] by the number of those
    that carry an error text. *)
Theorem method_stats_count_recorded (self : MCPInspector) (calls : list call)
    (name : string) :
  name <> "" ->
  let recorded := recorded_messages calls (is_recording self) in
  let before := stats_of (performance_metrics self) name in
  let after := stats_of (performance_metrics (run calls self)) name in
  count after
  = count before + Z.of_nat (length (List.filter (has_method name) recorded))
  /\ errors after
     = errors before
       + Z.of_nat (length (List.filter
                             (fun m => has_method name m && has_error m) recorded)).
Proof.
  intros Hname. revert self.
  induction calls as [|[now direction content et err| |] calls IH];
    intros self; unfold run in *; simpl fold_left.
  - simpl. lia.
  - destruct (IH (log_message self now direction content et err)) as (Hc & He).
    rewrite Hc, He, log_message_recording. clear IH Hc He.
    unfold log_message. destruct (is_recording self) eqn:Hrec; simpl; rewrite ?Hrec.
    + set (message := message_of now direction content et err).
      destruct (update_stats_of (performance_metrics self) message name Hname)
        as (-> & ->).
      destruct (has_method name message); destruct (has_error message);
        cbn [andb length]; lia.
    + lia.
  - destruct (IH (clear_messages self)) as (Hc & He). simpl in *. done.
  - destruct (IH (toggle_recording self)) as (Hc & He). simpl in *. done.
Qed.

Lemma method_stats_count_recorded_witness :
  count (stats_of (performance_metrics
                     (run (wrapped_handler_calls "tools/list" "()" None 0 1 8) init))
                  "tools/list") = 2.
Proof.
  destruct (method_stats_count_recorded init
              (wrapped_handler_calls "tools/list" "()" None 0 1 8) "tools/list")
    as [H _]; [discriminate|].
  rewrite H. vm_compute. reflexivity.
Defined.

Lemma wrapped_handler_step self method args start finish x h :
  is_recording self = true -> method <> "" -> ~ (x == 0)%Q ->
  let before := performance_metrics self in
  let after := performance_metrics (wrapped_handler self method args start finish x h) in
  is_recording (wrapped_handler self method args start finish x h) = true
  /\ total_messages after = total_messages before + 2
  /\ count (stats_of after method) = count (stats_of before method) + 2
  /\ total_time (stats_of after method) = (total_time (stats_of before method) + x)%Q
  /\ avg_time (stats_of after method)
     = (total_time (stats_of after method)
        / inject_Z (count (stats_of after method)))%Q.
Proof.
  intros Hrec Hm Hx.
  assert (Qeq_bool x 0 = false) as Hx'.
  { destruct (Qeq_bool x 0) eqn:E; [|done]. apply Qeq_bool_iff in E. contradiction. }
  destruct method as [|c method]; [done|].
  unfold wrapped_handler, log_message. rewrite Hrec. cbn [is_recording].
  destruct h as [result|error_msg]; cbn [performance_metrics is_recording];
    (split; [done|]);
    unfold _update_metrics, stats_of, message_of;
    cbn [Inspector.method Inspector.execution_time Inspector.error
         total_messages method_stats get get_default as_str String.eqb
         Ascii.eqb Bool.eqb truthy_float truthy_str time_of default
         PyStr.truthy];
    rewrite Hx'; cbn [negb];
    rewrite !lookup_insert_eq;
    cbn [default from_option id count total_time avg_time];
    (split; [lia|]); (split; [lia|]); (split; reflexivity).
Qed.

Lemma wrapped_calls_series method calls self :
  is_recording self = true -> method <> "" ->
  Forall (fun c => ~ (call_time c == 0)%Q) calls ->
  let before := performance_metrics self in
  let after := performance_metrics (wrapped_calls method calls self) in
  total_messages after = total_messages before + 2 * Z.of_nat (length calls)
  /\ count (stats_of after method)
     = count (stats_of before method) + 2 * Z.of_nat (length calls)
  /\ (total_time (stats_of after method)
      == total_time (stats_of before method)
         + total_time_of (map call_time calls))%Q
  /\ (calls <> [] ->
      (avg_time (stats_of after method)
       == total_time (stats_of after method)
          / inject_Z (count (stats_of after method)))%Q).
Proof.
  intros Hrec Hm Hall. revert self Hrec.
  induction Hall as [|c calls Hc Hall IH]; intros self Hrec.
  - simpl. repeat split; try lia; [|done]. unfold total_time_of. simpl. ring.
  - unfold wrapped_calls in *. simpl fold_left.
    destruct (wrapped_handler_step self method (call_args c) (call_start c)
                (call_finish c) (call_time c) (call_end c) Hrec Hm Hc)
      as (Hrec1 & Ht1 & Hc1 & Htt1 & Havg1).
    destruct (IH _ Hrec1) as (Ht & Hcount & Htotal & Havg).
    repeat split.
    + rewrite Ht, Ht1. simpl length. lia.
    + rewrite Hcount, Hc1. simpl length. lia.
    + rewrite Htotal, Htt1. unfold total_time_of. simpl. ring.
    + intros _. destruct calls as [|c' calls'].
      * cbn [fold_left]. rewrite Havg1 at 1. reflexivity.
      * apply Havg. discriminate.
Qed.

(** X23.  The per-method average is taken over requests and responses:
    after a series of calls of a wrapped handler on a new inspector, each
    taking a time that is not zero, the statistics of the method count two
    messages per call, their [total_time] is the sum of the times, and their
    [avg_time] is that sum divided by twice the number of calls, which is
    half the mean time of a call. *)
Theorem wrapped_handler_average (method : string) (calls : list handler_call) :
  method <> "" -> calls <> [] ->
  Forall (fun c => ~ (call_time c == 0)%Q) calls ->
  let after := performance_metrics (wrapped_calls method calls init) in
  let calls_made := Z.of_nat (length calls) in
  let time_spent := total_time_of (map call_time calls) in
  total_messages after = 2 * calls_made
  /\ count (stats_of after method) = 2 * calls_made
  /\ (total_time (stats_of after method) == time_spent)%Q
  /\ (avg_time (stats_of after method) == time_spent / inject_Z (2 * calls_made))%Q.
Proof.
  intros Hm Hne Hall.
  destruct (wrapped_calls_series method calls init eq_refl Hm Hall)
    as (Ht & Hc & Htotal & Havg).
  change (total_messages (performance_metrics init)) with 0 in Ht.
  change (count (stats_of (performance_metrics init) method)) with 0 in Hc.
  change (total_time (stats_of (performance_metrics init) method)) with 0%Q in Htotal.
  rewrite Z.add_0_l in Ht, Hc.
  split; [exact Ht|]. split; [exact Hc|].
  assert (total_time (stats_of (performance_metrics (wrapped_calls method calls init))
                        method)
          == total_time_of (map call_time calls))%Q as Htotal'.
  { rewrite Htotal. ring. }
  split; [exact Htotal'|].
  rewrite (Havg Hne), Hc, Htotal'. reflexivity.
Qed.

Lemma wrapped_handler_average_witness :
  (avg_time (stats_of (performance_metrics
                         (wrapped_calls "tools/list"
                            [mkCall "()" 0 1 8 (Returned None);
                             mkCall "()" 2 3 4 (Raised "ValueError: no")] init))
                      "tools/list") == 3)%Q.
Proof.
  destruct (wrapped_handler_average "tools/list"
              [mkCall "()" 0 1 8 (Returned None);
               mkCall "()" 2 3 4 (Raised "ValueError: no")])
    as (_ & _ & _ & H).
  - discriminate.
  - discriminate.
  - repeat constructor; vm_compute; discriminate.
  - rewrite H. vm_compute. reflexivity.
Defined.

End DashboardProperties.

(** * Further properties: the command router *)

Section RouterProperties.
Import PyStr Engine Analyzer Router.

Lemma all_chars_app p (s t : string) :
  all_chars p (s +:+ t) = all_chars p s && all_chars p t.
Proof. induction s as [|c s IH]; simpl; [done|]. by rewrite IH, andb_assoc. Qed.

Lemma split_tokens (s : string) : Forall is_token (split s).
Proof.
  induction s as [|c s IH]; simpl; [constructor|].
  destruct (is_space c) eqn:Ec; [exact IH|].
  destruct s as [|c' s'].
  { constructor; [|constructor]. split; [done|]. simpl. by rewrite Ec. }
  destruct (is_space c') eqn:Ec'.
  { constructor; [|exact IH]. split; [done|]. simpl. by rewrite Ec. }
  destruct (split (String c' s')) as [|token tokens].
  { constructor; [|constructor]. split; [done|]. simpl. by rewrite Ec. }
  inversion IH as [|? ? [Hne Hall] Hrest]; subst.
  constructor; [|exact Hrest]. split; [done|]. simpl. by rewrite Ec, Hall.
Qed.

Lemma split_cons_space c (s : string) : is_space c = true -> split (String c s) = split s.
Proof. intros H. simpl. by rewrite H. Qed.

Lemma split_token_then_space (token : string) c (rest : string) :
  is_token token -> is_space c = true ->
  split (token +:+ String c rest) = token :: split rest.
Proof.
  intros [Hne Hall] Hc. induction token as [|a token IH]; [done|].
  simpl in Hall. apply andb_true_iff in Hall as [Ha Hall].
  apply negb_true_iff in Ha.
  destruct token as [|b token].
  - change (String a "" +:+ String c rest) with (String a (String c rest)).
    cbn [split]. rewrite Ha, Hc. done.
  - change (String a (String b token) +:+ String c rest)
      with (String a (String b token +:+ String c rest)).
    assert (split (String b token +:+ String c rest) = String b token :: split rest)
      as Hrec by (apply IH; done).
    simpl in Hall. apply andb_true_iff in Hall as [Hb Hall].
    apply negb_true_iff in Hb.
    change (String b token +:+ String c rest)
      with (String b (token +:+ String c rest)) in *.
    cbn [split]. cbn [split] in Hrec. rewrite Ha, Hb in *. by rewrite Hrec.
Qed.

Lemma split_token_alone (token : string) : is_token token -> split token = [token].
Proof.
  intros [Hne Hall]. induction token as [|a token IH]; [done|].
  simpl in Hall. apply andb_true_iff in Hall as [Ha Hall].
  apply negb_true_iff in Ha.
  destruct token as [|b token].
  - simpl. by rewrite Ha.
  - assert (split (String b token) = [String b token]) as Hrec by (apply IH; done).
    simpl in Hall. apply andb_true_iff in Hall as [Hb Hall].
    apply negb_true_iff in Hb.
    cbn [split]. cbn [split] in Hrec. rewrite Ha, Hb in *. by rewrite Hrec.
Qed.

Lemma join_single_spaced (tokens : list string) :
  Forall is_token tokens -> single_spaced (join " " tokens).
Proof.
  unfold single_spaced. induction 1 as [|token tokens [_ Htoken] _ IH]; [done|].
  assert (all_chars (fun c => negb (is_space c) || Ascii.eqb c " ") token = true)
    as Htoken'.
  { clear -Htoken. induction token as [|c token IH]; [done|]. simpl in *.
    apply andb_true_iff in Htoken as [-> ?]. simpl. auto. }
  destruct tokens as [|next tokens]; [exact Htoken'|].
  change (join " " (token :: next :: tokens))
    with (token +:+ " " +:+ join " " (next :: tokens)).
  rewrite !all_chars_app, Htoken', IH. done.
Qed.

Lemma not_newline c :
  negb (is_space c) || Ascii.eqb c " " = true -> Ascii.eqb (ascii_of_nat 10) c = false.
Proof. destruct c as [[] [] [] [] [] [] [] []]; vm_compute; congruence. Qed.

Lemma single_spaced_no_newline (s : string) :
  single_spaced s -> contains LF s = false.
Proof.
  unfold single_spaced. induction s as [|c s IH]; [done|].
  intros H. cbn [all_chars] in H. apply andb_true_iff in H as [Hc Hs].
  change (contains LF (String c s))
    with ((if Ascii.eqb (ascii_of_nat 10) c then startswith s "" else false)
          || contains LF s).
  by rewrite (not_newline c Hc), (IH Hs).
Qed.

(** X24.  The code a slash command runs is its arguments joined by single
    spaces: whatever the text, the arguments of a dispatched command are
    tokens without white space, so the code built from them by the handlers
    holds no line break, tab or other white space than single spaces; code of
    several lines reaches the executor on one line. *)
Theorem command_code_is_single_spaced (reg : Registry) (text cmd_name : string)
    (command : SlashCommand) (args : list string) (skipped : nat) :
  resolve reg text = Known cmd_name command args ->
  Forall is_token args
  /\ single_spaced (join " " (drop skipped args))
  /\ contains LF (join " " (drop skipped args)) = false.
Proof.
  unfold resolve.
  destruct (negb (startswith text "/")); [done|].
  pose proof (split_tokens (after_first text)) as Htokens.
  destruct (split (after_first text)) as [|first rest]; [done|].
  destruct (commands reg !! _); [|done].
  intros [= <- <- <-].
  inversion Htokens as [|? ? _ Hrest]; subst.
  assert (Forall is_token (drop skipped rest)) as Hdrop.
  { by apply Forall_drop. }
  split; [exact Hrest|].
  split; [by apply join_single_spaced|].
  by apply single_spaced_no_newline, join_single_spaced.
Qed.

Lemma command_code_is_single_spaced_witness :
  contains LF (join " " (drop 2 ["isolation"; "python"; "x=1"; "print(x)"])) = false.
Proof.
  apply (command_code_is_single_spaced _register_commands
           ("/container isolation python x=1" +:+ LF +:+ "print(x)") "container"
           (mkCommand "container" "Execute code in secure Podman container" PODMAN
              "/container <security_level> <language> <code>"
              ["/container isolation python print('Hello!')";
               "/container persistent js console.log('test')"]
              handle_container ["podman"; "docker"])
           ["isolation"; "python"; "x=1"; "print(x)"] 2).
  vm_compute. reflexivity.
Defined.

Lemma fold_insert_alias (target : string) (aliases : list string)
    (names : gmap string string) alias name :
  fold_left (fun names alias => <[ alias := target ]> names) aliases names !! alias
  = Some name ->
  name = target \/ names !! alias = Some name.
Proof.
  revert names. induction aliases as [|a aliases IH]; intros names; simpl; [tauto|].
  intros H. apply IH in H as [->|H]; [by left|].
  destruct (decide (a = alias)) as [->|Hne].
  - rewrite lookup_insert_eq in H. left. congruence.
  - rewrite lookup_insert_ne in H by done. by right.
Qed.

Lemma register_well_formed reg cmd : well_formed reg -> well_formed (register reg cmd).
Proof.
  intros [Hnames Haliases]. split; simpl.
  - intros key cmd' H. destruct (decide (name cmd = key)) as [<-|Hne].
    + rewrite lookup_insert_eq in H. congruence.
    + rewrite lookup_insert_ne in H by done. by apply Hnames.
  - intros alias target H. apply fold_insert_alias in H as [->|H].
    + rewrite lookup_insert_eq. eauto.
    + destruct (decide (name cmd = target)) as [<-|Hne].
      * rewrite lookup_insert_eq. eauto.
      * rewrite lookup_insert_ne by done. by eapply Haliases.
Qed.

Lemma register_all_well_formed cmds : well_formed (register_all cmds).
Proof.
  unfold register_all.
  assert (well_formed (mkRegistry ∅ ∅)) as Hempty.
  { split; simpl; intros ? ? H; by rewrite lookup_empty in H. }
  revert Hempty. generalize (mkRegistry ∅ ∅).
  induction cmds as [|cmd cmds IH]; intros reg Hreg; simpl; [done|].
  apply IH. by apply register_well_formed.
Qed.

(** X25.  Registration keeps aliases sound, whatever list of commands is
    registered: a text whose first word, in lower case, is a registered alias
    is never answered as an unknown command, but resolves in one hop to the
    command filed under the alias's target, with the remaining words as
    arguments. *)
Theorem aliases_resolve (cmds : list SlashCommand) (text first target : string)
    (args : list string) :
  startswith text "/" = true ->
  split (after_first text) = first :: args ->
  alias_names (register_all cmds) !! lower first = Some target ->
  exists command,
    resolve (register_all cmds) text = Known target command args
    /\ name command = target.
Proof.
  intros Hslash Hsplit Halias.
  destruct (register_all_well_formed cmds) as [Hnames Haliases].
  destruct (Haliases _ _ Halias) as [command Hcommand].
  exists command. split; [|by eapply Hnames].
  unfold resolve. rewrite Hslash, Hsplit. simpl. rewrite Halias. simpl.
  by rewrite Hcommand.
Qed.

Lemma aliases_resolve_witness :
  exists command,
    resolve (register_all slash_commands) "/Podman isolation python print(1)"
    = Known "container" command ["isolation"; "python"; "print(1)"]
    /\ name command = "container".
Proof.
  apply (aliases_resolve slash_commands "/Podman isolation python print(1)" "Podman").
  - reflexivity.
  - vm_compute. reflexivity.
  - vm_compute. reflexivity.
Defined.

Lemma stats_le_refl s : stats_le s s.
Proof. unfold stats_le. lia. Qed.

Lemma stats_le_trans a b c : stats_le a b -> stats_le b c -> stats_le a c.
Proof. unfold stats_le. lia. Qed.

(** No handler touches the history or the count of commands, and none
    lowers a counter. *)
Lemma handler_keeps env reg id args text self :
  let after := (handlers env reg id args text self).2 in
  history after = history self
  /\ commands_executed (stats after) = commands_executed (stats self)
  /\ stats_le (stats self) (stats after).
Proof.
  destruct id; simpl;
    unfold _handle_run, _handle_container, _handle_secure_run, _handle_dev_run,
      _handle_quantum, _handle_quantum_container, _handle_benchmark,
      _handle_podman_status, _handle_cleanup, _handle_status, _handle_help,
      run_in_container, _analyze_security;
    repeat case_match; simpl in *; simplify_eq; simpl;
    unfold stats_le; simpl; repeat split; lia.
Qed.

(** X26.  The router's bookkeeping: after a series of texts, the history
    has grown by one entry for each text that was dispatched to a handler,
    in order, holding the time, the full text and the arguments; texts that
    are rejected (no slash, no command, unknown command) leave no trace;
    [commands_executed] has grown by the number of dispatched texts, and no
    counter has gone down. *)
Theorem router_bookkeeping (env : Env) (inputs : list (Q * string))
    (self : IntegratedSlashCommands) :
  let after := serve_all env inputs self in
  history after = history self ++ history_entries inputs
  /\ commands_executed (stats after)
     = commands_executed (stats self) + Z.of_nat (length (history_entries inputs))
  /\ stats_le (stats self) (stats after).
Proof.
  revert self. induction inputs as [|[now text] inputs IH]; intros self.
  - simpl. rewrite app_nil_r. split; [done|]. split; [lia|apply stats_le_refl].
  - unfold serve_all in *. simpl fold_left.
    destruct (IH (serve env now self text).2) as (Hh & Hc & Hle).
    rewrite Hh, Hc. clear IH Hh Hc.
    assert (history (serve env now self text).2
            = history self
              ++ match resolve _register_commands text with
                 | Known _ _ args => [mkHistoryEntry now text args]
                 | _ => []
                 end
            /\ commands_executed (stats (serve env now self text).2)
               = commands_executed (stats self)
                 + Z.of_nat (length match resolve _register_commands text with
                                    | Known _ _ args => [mkHistoryEntry now text args]
                                    | _ => []
                                    end)
            /\ stats_le (stats self) (stats (serve env now self text).2)) as Hstep.
    { unfold serve, process_command.
      destruct (resolve _register_commands text) as [| |cmd_name|cmd_name command args];
        simpl; rewrite ?app_nil_r;
        try (split; [done|]; split; [lia|apply stats_le_refl]).
      pose proof (handler_keeps env _register_commands (handler command) args text
                    (mkSlash (podman_executor self)
                       (history self ++ [mkHistoryEntry now text args])
                       (add_commands_executed (stats self) 1))) as Hk.
      destruct (handlers env _register_commands (handler command) args text _)
        as [[reply|msg] self']; simpl in *;
        destruct Hk as (Hh & Hc & Hs); rewrite Hh, Hc;
        (split; [done|]); (split; [lia|]);
        (eapply stats_le_trans; [|exact Hs]); unfold stats_le; simpl; lia. }
    destruct Hstep as (Hh & Hc & Hs). simpl history_entries.
    rewrite Hh, Hc, length_app, <- app_assoc.
    split; [done|]. split; [lia|]. by eapply stats_le_trans.
Qed.

Lemma lower_char_space c : is_space (lower_char c) = is_space c.
Proof. destruct c as [[] [] [] [] [] [] [] []]; vm_compute; reflexivity. Qed.

Lemma lower_token (word : string) : is_token (lower word) -> is_token word.
Proof.
  intros [Hne Hall]. split.
  - intros ->. done.
  - clear Hne. induction word as [|c word IH]; [done|].
    simpl in *. rewrite lower_char_space in Hall.
    apply andb_true_iff in Hall as [-> Hall]. simpl. by apply IH.
Qed.

Lemma resolve_known reg text cmd_name command args :
  resolve reg text = Known cmd_name command args ->
  commands reg !! cmd_name = Some command.
Proof.
  unfold resolve. destruct (negb (startswith text "/")); [done|].
  destruct (split (after_first text)) as [|first rest]; [done|].
  destruct (commands reg !! _) eqn:E; [|done].
  intros [= <- <- <-]. exact E.
Qed.

(** X27.  Every name and every alias of the registry reaches its own
    command, in any letter case: a text made of a slash, a word that in
    lower case is the name or an alias of a registered command, a space and
    further text resolves to that command, with the words of the further
    text as arguments. *)
Theorem names_and_aliases_dispatch (command : SlashCommand) (word rest : string) :
  In command slash_commands ->
  In (lower word) (name command :: aliases command) ->
  resolve _register_commands ("/" +:+ word +:+ " " +:+ rest)
  = Known (name command) command (split rest).
Proof.
  intros Hcommand Hword.
  assert (is_token (lower word)
          /\ default (lower word) (alias_names _register_commands !! lower word)
             = name command
          /\ commands _register_commands !! name command = Some command)
    as (Htoken & Halias & Hfiled).
  { simpl in Hcommand.
    repeat (destruct Hcommand as [<-|Hcommand]); try done;
      simpl in Hword; repeat (destruct Hword as [<-|Hword]); try done;
      (split; [split; [discriminate|reflexivity]|]);
      split; vm_compute; reflexivity. }
  apply lower_token in Htoken.
  unfold resolve.
  change ("/" +:+ word +:+ " " +:+ rest) with (String "/" (word +:+ String " " rest)).
  replace (startswith (String "/" (word +:+ String " " rest)) "/") with true
    by (by destruct (word +:+ String " " rest)).
  cbn [negb after_first].
  rewrite (split_token_then_space word " " rest Htoken eq_refl).
  cbv zeta. rewrite Halias, Hfiled. done.
Qed.

Lemma names_and_aliases_dispatch_witness :
  resolve _register_commands ("/" +:+ "EXEC" +:+ " " +:+ "python print(1)")
  = Known "run"
      (mkCommand "run" "Execute code with quantum debugging" EXECUTION
         "/run <language> <code>"
         ["/run python print('Hello!')"; "/run js console.log('Hi!')"]
         handle_run ["exec"; "execute"])
      (split "python print(1)").
Proof.
  apply (names_and_aliases_dispatch
           (mkCommand "run" "Execute code with quantum debugging" EXECUTION
              "/run <language> <code>"
              ["/run python print('Hello!')"; "/run js console.log('Hi!')"]
              handle_run ["exec"; "execute"]) "EXEC" "python print(1)").
  - simpl. tauto.
  - vm_compute. tauto.
Defined.

(** X28.  [/container] refuses a tier it does not know: when the first
    argument, in lower case, is none of [isolation], [persistent] and
    [development], the reply is [Invalid security level. Use: isolation,
    persistent, or development]; the command is recorded in the history and
    counted, but nothing is executed: the executor and [containers_used] are
    unchanged. *)
Theorem container_refuses_unknown_tier (env : Env) (now : Q)
    (self : IntegratedSlashCommands) (text : string) (command : SlashCommand)
    (tier language word : string) (rest : list string) :
  resolve _register_commands text
  = Known "container" command (tier :: language :: word :: rest) ->
  existsb (String.eqb (lower tier)) tiers = false ->
  serve env now self text
  = ("Invalid security level. Use: isolation, persistent, or development",
     recorded now text (tier :: language :: word :: rest) self).
Proof.
  intros Hresolve Htier.
  pose proof (resolve_known _ _ _ _ _ Hresolve) as Hfiled.
  vm_compute in Hfiled. injection Hfiled as <-.
  unfold serve, process_command. rewrite Hresolve.
  cbn [handler handlers]. unfold _handle_container.
  cbn [length Nat.ltb Nat.leb]. rewrite Htier. done.
Qed.

Lemma container_refuses_unknown_tier_witness :
  (serve (mkEnv (Demo.world_exit 0 "" "") (fun _ _ _ => "") (fun _ _ _ => "")
                (fun _ => ""))
         0 (mkSlash (Some (init true)) [] (mkStats 0 0 0 0 0 0))
         "/container paranoid python print(1)").1
  = "Invalid security level. Use: isolation, persistent, or development".
Proof.
  erewrite (container_refuses_unknown_tier _ 0 _
              "/container paranoid python print(1)" _ "paranoid" "python" "print(1)" []).
  - reflexivity.
  - vm_compute. reflexivity.
  - reflexivity.
Defined.

(** X29.  [/secure_run] never blocks: with an executor and at least two
    arguments, the code (the arguments after the language, joined by spaces)
    is run at the [isolation] tier whatever the analyzer finds;
    [containers_used] grows by one, and [security_violations_prevented] by
    one exactly when the analyzer reports a finding. *)
Theorem secure_run_counts_and_runs (env : Env) (now : Q)
    (self : IntegratedSlashCommands) (text : string) (command : SlashCommand)
    (language word : string) (rest : list string) (executor : Executor) :
  resolve _register_commands text
  = Known "secure_run" command (language :: word :: rest) ->
  podman_executor self = Some executor ->
  let code := join " " (word :: rest) in
  let findings := (_analyze_security self code).1 in
  let run := execute_code executor (world env) code (lower language) "isolation" in
  let after := (serve env now self text).2 in
  (serve env now self text).1 = execution_report env handle_secure_run findings run.1
  /\ podman_executor after = Some run.2
  /\ containers_used (stats after) = containers_used (stats self) + 1
  /\ security_violations_prevented (stats after)
     = security_violations_prevented (stats self)
       + match findings with [] => 0 | _ => 1 end.
Proof.
  intros Hresolve Hexecutor.
  pose proof (resolve_known _ _ _ _ _ Hresolve) as Hfiled.
  vm_compute in Hfiled. injection Hfiled as <-.
  unfold serve, process_command. rewrite Hresolve.
  cbn [handler handlers]. unfold _handle_secure_run, run_in_container, _analyze_security.
  cbn [length Nat.ltb Nat.leb podman_executor fst snd]. rewrite Hexecutor.
  destruct (fold_left (scan (join " " (word :: rest))) dangerous_patterns [])
    as [|finding findings];
    destruct (execute_code executor (world env) (join " " (word :: rest))
                (lower language) "isolation") as [result executor'];
    simpl; repeat split; lia.
Qed.

Lemma secure_run_counts_and_runs_witness :
  security_violations_prevented
    (stats (serve (mkEnv (Demo.world_exit 0 "" "") (fun _ _ _ => "") (fun _ _ _ => "")
                         (fun _ => ""))
                  0 (mkSlash (Some (init true)) [] (mkStats 0 0 0 0 0 0))
                  "/secure_run python import os").2) = 1.
Proof.
  destruct (secure_run_counts_and_runs
              (mkEnv (Demo.world_exit 0 "" "") (fun _ _ _ => "") (fun _ _ _ => "")
                     (fun _ => ""))
              0 (mkSlash (Some (init true)) [] (mkStats 0 0 0 0 0 0))
              "/secure_run python import os"
              (mkCommand "secure_run" "Execute code with maximum security isolation"
                 SECURITY "/secure_run <language> <code>"
                 ["/secure_run python import os; print(os.listdir('/'))"]
                 handle_secure_run ["secure"; "isolated"])
              "python" "import" ["os"] (init true))
    as (_ & _ & _ & H).
  - vm_compute. reflexivity.
  - reflexivity.
  - rewrite H. vm_compute. reflexivity.
Defined.

(** X30.  [/benchmark] trips over digits that are not decimal: with at
    least two arguments, when the last one passes [isdigit] but holds a
    superscript digit, [int] raises, and the router answers [Error executing
    command benchmark: <text of the exception>]. *)
Theorem benchmark_superscript_iterations (env : Env) (now : Q)
    (self : IntegratedSlashCommands) (text : string) (command : SlashCommand)
    (args : list string) :
  resolve _register_commands text = Known "benchmark" command args ->
  (2 <= length args)%nat ->
  isdigit (List.last args "") = true ->
  all_chars is_decimal_char (List.last args "") = false ->
  (serve env now self text).1
  = "Error executing command benchmark: " +:+ value_error env (List.last args "").
Proof.
  intros Hresolve Hlen Hdigit Hdecimal.
  pose proof (resolve_known _ _ _ _ _ Hresolve) as Hfiled.
  vm_compute in Hfiled. injection Hfiled as <-.
  unfold serve, process_command. rewrite Hresolve.
  cbn [handler handlers]. unfold _handle_benchmark.
  destruct (Nat.ltb_spec (length args) 2) as [Hlt|_]; [lia|].
  rewrite Hdigit, Hdecimal. done.
Qed.

Lemma benchmark_superscript_iterations_witness :
  (serve (mkEnv (Demo.world_exit 0 "" "") (fun _ _ _ => "") (fun _ _ _ => "")
                (fun s => "invalid literal for int() with base 10"))
         0 (mkSlash (Some (init true)) [] (mkStats 0 0 0 0 0 0))
         ("/benchmark python x " +:+ String (ascii_of_nat 178) "")).1
  = "Error executing command benchmark: invalid literal for int() with base 10".
Proof.
  erewrite (benchmark_superscript_iterations _ 0 _
              ("/benchmark python x " +:+ String (ascii_of_nat 178) "") _
              ["python"; "x"; String (ascii_of_nat 178) ""]).
  - reflexivity.
  - vm_compute. reflexivity.
  - simpl. lia.
  - vm_compute. reflexivity.
  - vm_compute. reflexivity.
Defined.

End RouterProperties.
